(** * TOTP generator (main.go): a shallow embedding and its properties

    The development follows the pipeline of [generateTOTP]:
    base-32 decoding of the secret, the 8-byte counter of the current
    30-second interval, HMAC over the counter, dynamic truncation and the
    decimal rendering of the remainder.

    The functions of main.go are embedded under their own names
    ([DecodeBase32], [GenerateHMAC], [ConvertTime], [HashTruncation],
    [generateTOTP]).  The Go standard-library routines they call
    (encoding/base32, crypto/sha1, crypto/sha256, crypto/sha512, crypto/hmac,
    strconv.Itoa) are embedded in modules named after their packages and are
    checked against published test vectors.

    Conventions.
    - A Go [byte] is a [Byte.byte]; a [[]byte] is a [list byte]; a Go string
      is a [string].
    - Go's [int] is taken to be 64 bits wide ([intSize]); its wrap-around is
      written out with [wrap_int].  For the digit counts offered by the user
      interface (6, 7, 8) nothing wraps, on 32-bit platforms either.
    - A run-time panic (index out of range, integer division by zero) is an
      outcome of its own, distinct from a returned [error] value.
    - [time.Now().Unix()] is an explicit argument [now] of [generateTOTP]. *)

From Stdlib Require Import ZArith List String Ascii Bool Lia.
From Stdlib Require Import Init.Byte Strings.Byte.
Import ListNotations.
Local Open Scope Z_scope.

(** ** Bytes, slices and machine integers *)

Definition byte_to_Z (b : byte) : Z := Z.of_N (Byte.to_N b).

(** Conversion [byte(x)]: the low-order eight bits. *)
Definition Z_to_byte (z : Z) : byte :=
  match Byte.of_N (Z.to_N (z mod 256)) with
  | Some b => b
  | None => x00
  end.

Definition len {A : Type} (s : list A) : Z := Z.of_nat (List.length s).

Definition intSize : Z := 64.

(** Two's-complement wrap-around of a signed integer of [w] bits. *)
Definition wrap_signed (w : Z) (x : Z) : Z :=
  (x + 2 ^ (w - 1)) mod 2 ^ w - 2 ^ (w - 1).

Definition wrap_int (x : Z) : Z := wrap_signed intSize x.

(** The conversion [int64(c)] of an unsigned 64-bit value. *)
Definition to_int64 (c : Z) : Z := wrap_signed 64 c.

(** Big-endian value of a byte sequence. *)
Definition be_decode (bs : list byte) : Z :=
  fold_left (fun acc b => acc * 256 + byte_to_Z b) bs 0.

(** The [n] low-order bytes of [z], most significant first. *)
Fixpoint be_bytes (n : nat) (z : Z) : list byte :=
  match n with
  | O => []
  | S k => Z_to_byte (Z.shiftr z (8 * Z.of_nat k)) :: be_bytes k z
  end.

(** ** Outcomes of a Go call: a value, or a run-time panic *)

Inductive runtime_panic : Type :=
| IndexOutOfRange (index length : Z)
| IntegerDivideByZero.

Inductive outcome (A : Type) : Type :=
| Returned (a : A)
| Panicked (p : runtime_panic).
Arguments Returned {A} a.
Arguments Panicked {A} p.

Definition bind {A B : Type} (m : outcome A) (k : A -> outcome B) : outcome B :=
  match m with
  | Returned a => k a
  | Panicked p => Panicked p
  end.

Notation "x <- m ;; k" := (bind m (fun x => k))
  (at level 61, m at next level, right associativity).

(** Index expression [s[i]] with Go's bounds check. *)
Definition index (s : list byte) (i : Z) : outcome byte :=
  if (0 <=? i) && (i <? len s)
  then Returned (nth (Z.to_nat i) s x00)
  else Panicked (IndexOutOfRange i (len s)).

(** The only [error] value that reaches [generateTOTP] is the
    [base32.CorruptInputError] of the decoder.  The input offset it carries is
    not modelled: [generateTOTP] only tests [err != nil]. *)
Inductive error : Type :=
| CorruptInputError.

(** ** encoding/base32: [StdEncoding.DecodeString] *)

Module base32.

Definition encodeStd : string := "ABCDEFGHIJKLMNOPQRSTUVWXYZ234567".
Definition StdPadding : byte := "="%byte.

Fixpoint indexByte (alphabet : list byte) (c : byte) (i : Z) : Z :=
  match alphabet with
  | [] => 0xFF
  | a :: rest => if Byte.eqb a c then i else indexByte rest c (i + 1)
  end.

(** [decodeMap[c]]: the position of [c] in the alphabet, 0xFF outside it. *)
Definition decodeMap (c : byte) : Z :=
  indexByte (list_byte_of_string encodeStd) c 0.

(** Carriage returns and line feeds are dropped before decoding. *)
Definition stripNewlines (src : list byte) : list byte :=
  filter (fun c => negb (Byte.eqb c "013"%byte || Byte.eqb c "010"%byte)) src.

(** After a padding character at position [j] the following [8-1-j]
    characters, as far as they exist, must be padding too. *)
Fixpoint badPadding (src : list byte) (count : nat) : bool :=
  match count with
  | O => false
  | S count' =>
      match src with
      | [] => false
      | c :: src' =>
          if Byte.eqb c StdPadding then badPadding src' count' else true
      end
  end.

Inductive quantum : Type :=
| QuantumError (e : error)
| Quantum (dbuf : list Z) (dlen : Z) (end_ : bool) (src : list byte).

(** The inner loop [for j := 0; j < 8; { ... }]: reads up to eight
    characters of one quantum.  Input that ends inside a quantum lacks its
    padding; a padding character is accepted from the third position on,
    when fewer than eight characters follow it. *)
Fixpoint readQuantum (src : list byte) (j : Z) (dbuf : list Z)
  {struct src} : quantum :=
  if 8 <=? j then Quantum dbuf 8 false src
  else
    match src with
    | [] => QuantumError CorruptInputError
    | c :: src' =>
        if Byte.eqb c StdPadding && (2 <=? j) && (len src' <? 8) then
          if len src' + j <? 8 - 1 then QuantumError CorruptInputError
          else if badPadding src' (Z.to_nat (8 - 1 - j))
          then QuantumError CorruptInputError
          else if (j =? 1) || (j =? 3) || (j =? 6)
          then QuantumError CorruptInputError
          else Quantum dbuf j true src'
        else
          let d := decodeMap c in
          if d =? 0xFF then QuantumError CorruptInputError
          else readQuantum src' (j + 1) (dbuf ++ [d])
    end.

Definition shl8 (x n : Z) : Z := Z.shiftl x n mod 256.
Definition at_ (dbuf : list Z) (i : nat) : Z := nth i dbuf 0.

(** The [switch dlen] with its fall-through cases: the bytes of one
    quantum, [dst[dsti+0]] first. *)
Definition pack (dbuf : list Z) (dlen : Z) : list byte :=
  let b0 := Z_to_byte (Z.lor (shl8 (at_ dbuf 0) 3) (Z.shiftr (at_ dbuf 1) 2)) in
  let b1 := Z_to_byte (Z.lor (Z.lor (shl8 (at_ dbuf 1) 6) (shl8 (at_ dbuf 2) 1))
                             (Z.shiftr (at_ dbuf 3) 4)) in
  let b2 := Z_to_byte (Z.lor (shl8 (at_ dbuf 3) 4) (Z.shiftr (at_ dbuf 4) 1)) in
  let b3 := Z_to_byte (Z.lor (Z.lor (shl8 (at_ dbuf 4) 7) (shl8 (at_ dbuf 5) 2))
                             (Z.shiftr (at_ dbuf 6) 3)) in
  let b4 := Z_to_byte (Z.lor (shl8 (at_ dbuf 6) 5) (at_ dbuf 7)) in
  if dlen =? 8 then [b0; b1; b2; b3; b4]
  else if dlen =? 7 then [b0; b1; b2; b3]
  else if dlen =? 5 then [b0; b1; b2]
  else if dlen =? 4 then [b0; b1]
  else if dlen =? 2 then [b0]
  else [].

(** The outer loop [for len(src) > 0 && !end].  Every turn consumes at
    least one character, so [length src] turns are enough. *)
Fixpoint decodeLoop (fuel : nat) (src : list byte) (end_ : bool)
  (dst : list byte) : list byte * option error :=
  match fuel with
  | O => (dst, None)
  | S fuel' =>
      if (0 <? len src) && negb end_ then
        match readQuantum src 0 [] with
        | QuantumError e => (dst, Some e)
        | Quantum dbuf dlen end' src' =>
            decodeLoop fuel' src' end' (dst ++ pack dbuf dlen)
        end
      else (dst, None)
  end.

Definition decode (src : list byte) : list byte * option error :=
  decodeLoop (S (List.length src)) src false [].

Definition DecodeString (s : string) : list byte * option error :=
  decode (stripNewlines (list_byte_of_string s)).

End base32.

(** ** strconv.Itoa *)

Module strconv.

Definition digit (d : Z) : ascii := ascii_of_nat (48 + Z.to_nat d).

(** [for u >= 10 { q := u / 10; buf[i] = '0' + u - q*10; u = q }], the
    digits being written from the right.  A 64-bit value has at most twenty
    digits. *)
Fixpoint formatBits (fuel : nat) (u : Z) (acc : string) : string :=
  match fuel with
  | O => acc
  | S fuel' =>
      if 10 <=? u
      then formatBits fuel' (u / 10) (String (digit (u - (u / 10) * 10)) acc)
      else String (digit u) acc
  end.

Definition Itoa (i : Z) : string :=
  if i <? 0
  then String "-"%char (formatBits 20 (- i) EmptyString)
  else formatBits 20 i EmptyString.

End strconv.

(** ** hash.Hash

    The Go interface is used through [Write] followed by [Sum(nil)]; [Sum]
    here is the digest of everything written. *)

Module hash.

Record Hash : Type := {
  Size : nat;
  BlockSize : nat;
  Sum : list byte -> list byte
}.

End hash.

(** [for len(p) >= chunk { ...; p = p[chunk:] }]: the full blocks of [p]. *)
Fixpoint chunks (fuel chunk : nat) (p : list byte) : list (list byte) :=
  match fuel with
  | O => []
  | S fuel' =>
      if (chunk <=? List.length p)%nat
      then firstn chunk p :: chunks fuel' chunk (skipn chunk p)
      else []
  end.

Definition blocks (chunk : nat) (p : list byte) : list (list byte) :=
  chunks (List.length p) chunk p.

(** The big-endian words of [size] bytes each of a block. *)
Definition words (size : nat) (p : list byte) : list Z :=
  map be_decode (blocks size p).

Definition u32 (x : Z) : Z := x mod 2 ^ 32.
Definition u64 (x : Z) : Z := x mod 2 ^ 64.

(** [bits.RotateLeft32(x, k)] and [bits.RotateLeft32(x, -k)]. *)
Definition RotateLeft32 (x k : Z) : Z :=
  u32 (Z.lor (Z.shiftl x k) (Z.shiftr x (32 - k))).
Definition RotateRight32 (x k : Z) : Z := RotateLeft32 x (32 - k).

Definition RotateLeft64 (x k : Z) : Z :=
  u64 (Z.lor (Z.shiftl x k) (Z.shiftr x (64 - k))).
Definition RotateRight64 (x k : Z) : Z := RotateLeft64 x (64 - k).

(** [^x] on [uint32] and [uint64]. *)
Definition not32 (x : Z) : Z := Z.lxor x 0xFFFFFFFF.
Definition not64 (x : Z) : Z := Z.lxor x 0xFFFFFFFFFFFFFFFF.

Definition rounds (n : nat) : list Z := map Z.of_nat (seq 0 n).

(** ** crypto/sha1 *)

Module sha1.

Definition Size : nat := 20.
Definition BlockSize : nat := 64.

Definition init0 : Z := 0x67452301.
Definition init1 : Z := 0xEFCDAB89.
Definition init2 : Z := 0x98BADCFE.
Definition init3 : Z := 0x10325476.
Definition init4 : Z := 0xC3D2E1F0.

Definition _K0 : Z := 0x5A827999.
Definition _K1 : Z := 0x6ED9EBA1.
Definition _K2 : Z := 0x8F1BBCDC.
Definition _K3 : Z := 0xCA62C1D6.

Definition state : Type := (Z * Z * Z * Z * Z)%type.

(** The message schedule.  The window holds the sixteen words
    [w[i-16] .. w[i-1]] that Go keeps in [w[i&0xf]]. *)
Fixpoint expand (n : nat) (win : list Z) : list Z :=
  match n with
  | O => []
  | S k =>
      let tmp := Z.lxor (Z.lxor (Z.lxor (nth 13 win 0) (nth 8 win 0))
                                (nth 2 win 0)) (nth 0 win 0) in
      nth 0 win 0 :: expand k (tl win ++ [RotateLeft32 tmp 1])
  end.

Definition round (s : state) (iw : Z * Z) : state :=
  let '(a, b, c, d, e) := s in
  let (i, w) := iw in
  let (f, k) :=
    if i <? 20 then (Z.lor (Z.land b c) (Z.land (not32 b) d), _K0)
    else if i <? 40 then (Z.lxor (Z.lxor b c) d, _K1)
    else if i <? 60 then (Z.lor (Z.land (Z.lor b c) d) (Z.land b c), _K2)
    else (Z.lxor (Z.lxor b c) d, _K3) in
  let t := u32 (RotateLeft32 a 5 + f + e + w + k) in
  (t, a, RotateLeft32 b 30, c, d).

Definition block (h : state) (p : list byte) : state :=
  let '(h0, h1, h2, h3, h4) := h in
  let '(a, b, c, d, e) :=
    fold_left round (combine (rounds 80) (expand 80 (words 4 p))) h in
  (u32 (h0 + a), u32 (h1 + b), u32 (h2 + c), u32 (h3 + d), u32 (h4 + e)).

(** The padding written by [checkSum]: a 1 bit, zeros up to 56 bytes mod
    64, and the length in bits. *)
Definition padding (n : Z) : list byte :=
  let t := if n mod 64 <? 56 then 56 - n mod 64 else 64 + 56 - n mod 64 in
  x80 :: repeat x00 (Z.to_nat (t - 1)) ++ be_bytes 8 (u64 (Z.shiftl n 3)).

Definition Sum (data : list byte) : list byte :=
  let '(h0, h1, h2, h3, h4) :=
    fold_left block (blocks 64 (data ++ padding (len data)))
      (init0, init1, init2, init3, init4) in
  be_bytes 4 h0 ++ be_bytes 4 h1 ++ be_bytes 4 h2 ++ be_bytes 4 h3
    ++ be_bytes 4 h4.

Definition New : hash.Hash :=
  {| hash.Size := Size; hash.BlockSize := BlockSize; hash.Sum := Sum |}.

End sha1.

(** ** crypto/sha256 *)

Module sha256.

Definition Size : nat := 32.
Definition BlockSize : nat := 64.

Definition init : list Z :=
  [
    0x6A09E667; 0xBB67AE85; 0x3C6EF372; 0xA54FF53A;
    0x510E527F; 0x9B05688C; 0x1F83D9AB; 0x5BE0CD19 ].

Definition _K : list Z :=
  [
    0x428A2F98; 0x71374491; 0xB5C0FBCF; 0xE9B5DBA5; 0x3956C25B; 0x59F111F1;
    0x923F82A4; 0xAB1C5ED5; 0xD807AA98; 0x12835B01; 0x243185BE; 0x550C7DC3;
    0x72BE5D74; 0x80DEB1FE; 0x9BDC06A7; 0xC19BF174; 0xE49B69C1; 0xEFBE4786;
    0x0FC19DC6; 0x240CA1CC; 0x2DE92C6F; 0x4A7484AA; 0x5CB0A9DC; 0x76F988DA;
    0x983E5152; 0xA831C66D; 0xB00327C8; 0xBF597FC7; 0xC6E00BF3; 0xD5A79147;
    0x06CA6351; 0x14292967; 0x27B70A85; 0x2E1B2138; 0x4D2C6DFC; 0x53380D13;
    0x650A7354; 0x766A0ABB; 0x81C2C92E; 0x92722C85; 0xA2BFE8A1; 0xA81A664B;
    0xC24B8B70; 0xC76C51A3; 0xD192E819; 0xD6990624; 0xF40E3585; 0x106AA070;
    0x19A4C116; 0x1E376C08; 0x2748774C; 0x34B0BCB5; 0x391C0CB3; 0x4ED8AA4A;
    0x5B9CCA4F; 0x682E6FF3; 0x748F82EE; 0x78A5636F; 0x84C87814; 0x8CC70208;
    0x90BEFFFA; 0xA4506CEB; 0xBEF9A3F7; 0xC67178F2 ].

Definition state : Type := (Z * Z * Z * Z * Z * Z * Z * Z)%type.

(** [w[i] = t1 + w[i-7] + t2 + w[i-16]], the window holding
    [w[i-16] .. w[i-1]]. *)
Fixpoint expand (n : nat) (win : list Z) : list Z :=
  match n with
  | O => []
  | S k =>
      let v1 := nth 14 win 0 in
      let t1 := Z.lxor (Z.lxor (RotateRight32 v1 17) (RotateRight32 v1 19))
                       (Z.shiftr v1 10) in
      let v2 := nth 1 win 0 in
      let t2 := Z.lxor (Z.lxor (RotateRight32 v2 7) (RotateRight32 v2 18))
                       (Z.shiftr v2 3) in
      nth 0 win 0
        :: expand k (tl win ++ [u32 (t1 + nth 9 win 0 + t2 + nth 0 win 0)])
  end.

Definition round (s : state) (kw : Z * Z) : state :=
  let '(a, b, c, d, e, f, g, h) := s in
  let (k, w) := kw in
  let t1 := u32 (h
    + Z.lxor (Z.lxor (RotateRight32 e 6) (RotateRight32 e 11)) (RotateRight32 e 25)
    + Z.lxor (Z.land e f) (Z.land (not32 e) g) + k + w) in
  let t2 := u32 (
      Z.lxor (Z.lxor (RotateRight32 a 2) (RotateRight32 a 13)) (RotateRight32 a 22)
    + Z.lxor (Z.lxor (Z.land a b) (Z.land a c)) (Z.land b c)) in
  (u32 (t1 + t2), a, b, c, u32 (d + t1), e, f, g).

Definition block (hs : state) (p : list byte) : state :=
  let '(h0, h1, h2, h3, h4, h5, h6, h7) := hs in
  let '(a, b, c, d, e, f, g, h) :=
    fold_left round (combine _K (expand 64 (words 4 p))) hs in
  (u32 (h0 + a), u32 (h1 + b), u32 (h2 + c), u32 (h3 + d),
   u32 (h4 + e), u32 (h5 + f), u32 (h6 + g), u32 (h7 + h)).

Definition padding (n : Z) : list byte :=
  let t := if n mod 64 <? 56 then 56 - n mod 64 else 64 + 56 - n mod 64 in
  x80 :: repeat x00 (Z.to_nat (t - 1)) ++ be_bytes 8 (u64 (Z.shiftl n 3)).

Definition Sum (data : list byte) : list byte :=
  let '(h0, h1, h2, h3, h4, h5, h6, h7) :=
    fold_left block (blocks 64 (data ++ padding (len data)))
      (nth 0 init 0, nth 1 init 0, nth 2 init 0, nth 3 init 0,
       nth 4 init 0, nth 5 init 0, nth 6 init 0, nth 7 init 0) in
  be_bytes 4 h0 ++ be_bytes 4 h1 ++ be_bytes 4 h2 ++ be_bytes 4 h3
    ++ be_bytes 4 h4 ++ be_bytes 4 h5 ++ be_bytes 4 h6 ++ be_bytes 4 h7.

Definition New : hash.Hash :=
  {| hash.Size := Size; hash.BlockSize := BlockSize; hash.Sum := Sum |}.

End sha256.

(** ** crypto/sha512 *)

Module sha512.

Definition Size : nat := 64.
Definition BlockSize : nat := 128.

Definition init : list Z :=
  [
    0x6A09E667F3BCC908; 0xBB67AE8584CAA73B;
    0x3C6EF372FE94F82B; 0xA54FF53A5F1D36F1;
    0x510E527FADE682D1; 0x9B05688C2B3E6C1F;
    0x1F83D9ABFB41BD6B; 0x5BE0CD19137E2179 ].

Definition _K : list Z :=
  [
    0x428A2F98D728AE22; 0x7137449123EF65CD; 0xB5C0FBCFEC4D3B2F;
    0xE9B5DBA58189DBBC; 0x3956C25BF348B538; 0x59F111F1B605D019;
    0x923F82A4AF194F9B; 0xAB1C5ED5DA6D8118; 0xD807AA98A3030242;
    0x12835B0145706FBE; 0x243185BE4EE4B28C; 0x550C7DC3D5FFB4E2;
    0x72BE5D74F27B896F; 0x80DEB1FE3B1696B1; 0x9BDC06A725C71235;
    0xC19BF174CF692694; 0xE49B69C19EF14AD2; 0xEFBE4786384F25E3;
    0x0FC19DC68B8CD5B5; 0x240CA1CC77AC9C65; 0x2DE92C6F592B0275;
    0x4A7484AA6EA6E483; 0x5CB0A9DCBD41FBD4; 0x76F988DA831153B5;
    0x983E5152EE66DFAB; 0xA831C66D2DB43210; 0xB00327C898FB213F;
    0xBF597FC7BEEF0EE4; 0xC6E00BF33DA88FC2; 0xD5A79147930AA725;
    0x06CA6351E003826F; 0x142929670A0E6E70; 0x27B70A8546D22FFC;
    0x2E1B21385C26C926; 0x4D2C6DFC5AC42AED; 0x53380D139D95B3DF;
    0x650A73548BAF63DE; 0x766A0ABB3C77B2A8; 0x81C2C92E47EDAEE6;
    0x92722C851482353B; 0xA2BFE8A14CF10364; 0xA81A664BBC423001;
    0xC24B8B70D0F89791; 0xC76C51A30654BE30; 0xD192E819D6EF5218;
    0xD69906245565A910; 0xF40E35855771202A; 0x106AA07032BBD1B8;
    0x19A4C116B8D2D0C8; 0x1E376C085141AB53; 0x2748774CDF8EEB99;
    0x34B0BCB5E19B48A8; 0x391C0CB3C5C95A63; 0x4ED8AA4AE3418ACB;
    0x5B9CCA4F7763E373; 0x682E6FF3D6B2B8A3; 0x748F82EE5DEFB2FC;
    0x78A5636F43172F60; 0x84C87814A1F0AB72; 0x8CC702081A6439EC;
    0x90BEFFFA23631E28; 0xA4506CEBDE82BDE9; 0xBEF9A3F7B2C67915;
    0xC67178F2E372532B; 0xCA273ECEEA26619C; 0xD186B8C721C0C207;
    0xEADA7DD6CDE0EB1E; 0xF57D4F7FEE6ED178; 0x06F067AA72176FBA;
    0x0A637DC5A2C898A6; 0x113F9804BEF90DAE; 0x1B710B35131C471B;
    0x28DB77F523047D84; 0x32CAAB7B40C72493; 0x3C9EBE0A15C9BEBC;
    0x431D67C49C100D4C; 0x4CC5D4BECB3E42B6; 0x597F299CFC657E2A;
    0x5FCB6FAB3AD6FAEC; 0x6C44198C4A475817 ].

Definition state : Type := (Z * Z * Z * Z * Z * Z * Z * Z)%type.

Fixpoint expand (n : nat) (win : list Z) : list Z :=
  match n with
  | O => []
  | S k =>
      let v1 := nth 14 win 0 in
      let t1 := Z.lxor (Z.lxor (RotateRight64 v1 19) (RotateRight64 v1 61))
                       (Z.shiftr v1 6) in
      let v2 := nth 1 win 0 in
      let t2 := Z.lxor (Z.lxor (RotateRight64 v2 1) (RotateRight64 v2 8))
                       (Z.shiftr v2 7) in
      nth 0 win 0
        :: expand k (tl win ++ [u64 (t1 + nth 9 win 0 + t2 + nth 0 win 0)])
  end.

Definition round (s : state) (kw : Z * Z) : state :=
  let '(a, b, c, d, e, f, g, h) := s in
  let (k, w) := kw in
  let t1 := u64 (h
    + Z.lxor (Z.lxor (RotateRight64 e 14) (RotateRight64 e 18)) (RotateRight64 e 41)
    + Z.lxor (Z.land e f) (Z.land (not64 e) g) + k + w) in
  let t2 := u64 (
      Z.lxor (Z.lxor (RotateRight64 a 28) (RotateRight64 a 34)) (RotateRight64 a 39)
    + Z.lxor (Z.lxor (Z.land a b) (Z.land a c)) (Z.land b c)) in
  (u64 (t1 + t2), a, b, c, u64 (d + t1), e, f, g).

Definition block (hs : state) (p : list byte) : state :=
  let '(h0, h1, h2, h3, h4, h5, h6, h7) := hs in
  let '(a, b, c, d, e, f, g, h) :=
    fold_left round (combine _K (expand 80 (words 8 p))) hs in
  (u64 (h0 + a), u64 (h1 + b), u64 (h2 + c), u64 (h3 + d),
   u64 (h4 + e), u64 (h5 + f), u64 (h6 + g), u64 (h7 + h)).

(** Zeros up to 112 bytes mod 128, then the length in bits as a 128-bit
    number: [len>>61] and [len<<3]. *)
Definition padding (n : Z) : list byte :=
  let t := if n mod 128 <? 112 then 112 - n mod 128
           else 128 + 112 - n mod 128 in
  x80 :: repeat x00 (Z.to_nat (t - 1))
    ++ be_bytes 8 (Z.shiftr n 61) ++ be_bytes 8 (u64 (Z.shiftl n 3)).

Definition Sum (data : list byte) : list byte :=
  let '(h0, h1, h2, h3, h4, h5, h6, h7) :=
    fold_left block (blocks 128 (data ++ padding (len data)))
      (nth 0 init 0, nth 1 init 0, nth 2 init 0, nth 3 init 0,
       nth 4 init 0, nth 5 init 0, nth 6 init 0, nth 7 init 0) in
  be_bytes 8 h0 ++ be_bytes 8 h1 ++ be_bytes 8 h2 ++ be_bytes 8 h3
    ++ be_bytes 8 h4 ++ be_bytes 8 h5 ++ be_bytes 8 h6 ++ be_bytes 8 h7.

Definition New : hash.Hash :=
  {| hash.Size := Size; hash.BlockSize := BlockSize; hash.Sum := Sum |}.

End sha512.

(** ** crypto/hmac *)

Module hmac.

Record HMAC : Type := {
  h : hash.Hash;
  opad : list byte;
  ipad : list byte;
  inner : list byte    (* what has been written to the inner hash *)
}.

Definition xor_pad (c : Z) (b : byte) : byte :=
  Z_to_byte (Z.lxor (byte_to_Z b) c).

(** A key longer than the block is hashed first; [copy] into the zeroed
    pads leaves the key followed by zeros. *)
Definition New (hf : hash.Hash) (key : list byte) : HMAC :=
  let blocksize := hash.BlockSize hf in
  let key := if (blocksize <? List.length key)%nat then hash.Sum hf key else key in
  let padded := key ++ repeat x00 (blocksize - List.length key) in
  let ipad := map (xor_pad 0x36) padded in
  let opad := map (xor_pad 0x5c) padded in
  {| h := hf; opad := opad; ipad := ipad; inner := ipad |}.

Definition Write (hm : HMAC) (p : list byte) : HMAC :=
  {| h := h hm; opad := opad hm; ipad := ipad hm; inner := inner hm ++ p |}.

Definition Sum (hm : HMAC) : list byte :=
  let in_ := hash.Sum (h hm) (inner hm) in
  hash.Sum (h hm) (opad hm ++ in_).

End hmac.

(** ** main.go *)

Definition DecodeBase32 (secret : string) : list byte * option error :=
  base32.DecodeString secret.

(** The assignment [s[i] = b] for an index inside the slice (the only use,
    in [ConvertTime], writes the indices 7 down to 0 of eight bytes). *)
Fixpoint set_index (s : list byte) (i : nat) (b : byte) : list byte :=
  match s, i with
  | [], _ => []
  | _ :: s', O => b :: s'
  | x :: s', S i' => x :: set_index s' i' b
  end.

(** The loop [for i := 7; i >= 0; i--] of [ConvertTime]: [n] turns are
    left and the next one runs with [i = n - 1]. *)
Fixpoint ConvertTime_loop (n : nat) (interval : Z) (data : list byte) : list byte :=
  match n with
  | O => data
  | S i =>
      ConvertTime_loop i (Z.shiftr interval 8)
        (set_index data i (Z_to_byte (Z.land interval 0xff)))
  end.

Definition ConvertTime (interval : Z) : list byte :=
  ConvertTime_loop 8 interval (repeat x00 8).

(** [offset+k] in the arithmetic of [byte]. *)
Definition byte_add (offset k : Z) : Z := (offset + k) mod 256.

Definition HashTruncation (hash : list byte) : outcome Z :=
  last_ <- index hash (len hash - 1) ;;
  let offset := Z.land (byte_to_Z last_) 0x0f in
  b0 <- index hash offset ;;
  b1 <- index hash (byte_add offset 1) ;;
  b2 <- index hash (byte_add offset 2) ;;
  b3 <- index hash (byte_add offset 3) ;;
  Returned
    (Z.lor (Z.lor (Z.lor
       (Z.shiftl (Z.land (byte_to_Z b0) 0x7f) 24)
       (Z.shiftl (Z.land (byte_to_Z b1) 0xff) 16))
       (Z.shiftl (Z.land (byte_to_Z b2) 0xff) 8))
       (Z.land (byte_to_Z b3) 0xff)).


Definition GenerateHMAC (hashFunc : hash.Hash) (key data : list byte) : list byte :=
  let hmac := hmac.New hashFunc key in
  let hmac := hmac.Write hmac data in
  hmac.Sum hmac.

(** The loop [for i := 0; i < digits; i++ { divisor *= 10 }], started at
    [divisor := 1]: [digits] turns for a positive [digits], none otherwise. *)
Definition divisor_turns (n : nat) : Z :=
  Nat.iter n (fun divisor => wrap_int (divisor * 10)) 1.

Definition divisor_loop (digits : Z) : Z := divisor_turns (Z.to_nat digits).

(** Go's [x % y] on [int]: the remainder has the sign of [x]; a zero divisor
    panics. *)
Definition rem_int (x y : Z) : outcome Z :=
  if y =? 0 then Panicked IntegerDivideByZero else Returned (Z.rem x y).

(** [time.Now().Unix() / 30]: division of [int64] truncates toward zero. *)
Definition interval_of (now : Z) : Z := Z.quot now 30.

Definition generateTOTP (secret : string) (hashFunc : hash.Hash) (digits : Z)
  (now : Z) : outcome (string * option error) :=
  let (key, err) := DecodeBase32 secret in
  match err with
  | Some e => Returned (EmptyString, Some e)
  | None =>
      let interval := interval_of now in
      let data := ConvertTime interval in
      let hash := GenerateHMAC hashFunc key data in
      truncatedHash <- HashTruncation hash ;;
      let divisor := divisor_loop digits in
      totp <- rem_int truncatedHash divisor ;;
      Returned (strconv.Itoa totp, None)
  end.

(** The three hash functions the selector of [main] offers. *)
Inductive Algorithm : Type := SHA1 | SHA256 | SHA512.

Definition hashFunc_of (value : Algorithm) : hash.Hash :=
  match value with
  | SHA1 => sha1.New
  | SHA256 => sha256.New
  | SHA512 => sha512.New
  end.

(** ** The error kinds of the design, and what the code can report

    The design names five kinds of failure.  A failure of the code is either
    an [error] value returned to the caller or a run-time panic;
    [failure_kind] says which of the named kinds a failure is. *)

Inductive ErrorKind : Type :=
| InvalidEncoding
| EmptySecret
| InvalidTime
| DigestTooShort
| UnsupportedDigitCount.

Inductive failure : Type :=
| ErrorValue (e : error)
| RuntimePanic (p : runtime_panic).

Definition failure_kind (f : failure) : option ErrorKind :=
  match f with
  | ErrorValue CorruptInputError => Some InvalidEncoding
  | RuntimePanic _ => None
  end.

Definition generate_failure (r : outcome (string * option error)) : option failure :=
  match r with
  | Returned (_, Some e) => Some (ErrorValue e)
  | Returned (_, None) => None
  | Panicked p => Some (RuntimePanic p)
  end.

Definition truncation_failure (r : outcome Z) : option failure :=
  match r with
  | Returned _ => None
  | Panicked p => Some (RuntimePanic p)
  end.

Definition fails_with (k : ErrorKind) (f : option failure) : Prop :=
  exists x, f = Some x /\ failure_kind x = Some k.

(** ** Dynamic truncation as RFC 4226 states it

    Stated from the design text, for comparison with [HashTruncation]: the
    offset is the value of the low four bits of the last byte, and the result
    is the number whose big-endian bytes are those at [offset .. offset+3],
    the first one without its top bit. *)

Definition truncation_offset (digest : list byte) : Z :=
  byte_to_Z (last digest x00) mod 16.

Definition digest_byte (digest : list byte) (i : Z) : Z :=
  byte_to_Z (nth (Z.to_nat i) digest x00).

Definition dynamic_truncation (digest : list byte) : Z :=
  let offset := truncation_offset digest in
  (digest_byte digest offset mod 128) * 2 ^ 24
  + digest_byte digest (offset + 1) * 2 ^ 16
  + digest_byte digest (offset + 2) * 2 ^ 8
  + digest_byte digest (offset + 3).

(** The number a string of decimal digits denotes, for comparison with
    [strconv.Itoa]. *)
Definition digit_value (c : ascii) : Z := Z.of_nat (nat_of_ascii c) - 48.

Fixpoint decimal_from (acc : Z) (s : string) : Z :=
  match s with
  | EmptyString => acc
  | String c s' => decimal_from (acc * 10 + digit_value c) s'
  end.

Definition decimal_value (s : string) : Z := decimal_from 0 s.

Definition slen (s : string) : Z := Z.of_nat (String.length s).

(** The secret of the RFC 6238 test vectors: the base-32 text of the ASCII
    string 12345678901234567890. *)
Definition rfc6238_secret : string := "GEZDGNBVGY3TQOJQGEZDGNBVGY3TQOJQ".

(** The reading of [generateTOTP] under which only the decoder can fail:
    an error is returned exactly when decoding fails, then with an empty
    code, and a decoded secret always yields a code and a nil error. *)
Definition errors_only_from_decoding (secret : string) (value : Algorithm)
  (digits now : Z) : Prop :=
  let r := generateTOTP secret (hashFunc_of value) digits now in
  ((exists code e, r = Returned (code, Some e))
     <-> snd (DecodeBase32 secret) <> None)
  /\ (snd (DecodeBase32 secret) = None -> exists code, r = Returned (code, None))
  /\ (forall e, snd (DecodeBase32 secret) = Some e -> r = Returned (EmptyString, Some e)).

(** ** strconv.Atoi

    Used by the digit selector of [main], which drops the error.  The fast
    path handles texts of 1 to 18 characters; the others go through
    [ParseInt(s, 10, 0)].  In base 10 every character that is not a decimal
    digit is a syntax error. *)

Module atoi.











End atoi.

(** ** The label and [updateTOTP] *)

Module widget.

Record Label : Type := { Text : string }.

Definition NewLabel (text : string) : Label := {| Text := text |}.

Definition SetText (label : Label) (text : string) : Label := {| Text := text |}.

End widget.

Definition updateTOTP (label : widget.Label) (secret : string)
  (hashFunc : hash.Hash) (digits now : Z) : outcome widget.Label :=
  r <- generateTOTP secret hashFunc digits now ;;
  let (totp, err) := r in
  match err with
  | Some _ => Returned (widget.SetText label "Error Generating TOTP")
  | None => Returned (widget.SetText label totp)
  end.

(** ** The state of [main] and its callbacks

    The local variables [secret], [hashFunc] and [digits] of [main], which
    the callbacks capture and assign, and the label they update.  Every
    callback reads the clock when it calls [updateTOTP]; that reading is the
    argument [now]. *)












(** The characters of the base-32 alphabet. *)
Definition in_alphabet (c : byte) : bool := negb (base32.decodeMap c =? 0xFF).

(** The block-sized key that [hmac.New] derives from the caller's key,
    before it is combined with the two pad bytes. *)
Definition hmac_block_key (hf : hash.Hash) (key : list byte) : list byte :=
  let key' :=
    if (hash.BlockSize hf <? List.length key)%nat then hash.Sum hf key else key in
  key' ++ repeat x00 (hash.BlockSize hf - List.length key').



(** * Properties *)

(** ** Bytes *)

Lemma byte_to_Z_range (b : byte) : 0 <= byte_to_Z b < 256.
Proof.
  unfold byte_to_Z. pose proof (Byte.to_N_bounded b). lia.
Qed.

Lemma byte_to_Z_of_Z (z : Z) : byte_to_Z (Z_to_byte z) = z mod 256.
Proof.
  unfold Z_to_byte, byte_to_Z.
  assert (Hr : 0 <= z mod 256 < 256) by (apply Z.mod_pos_bound; lia).
  destruct (Byte.of_N (Z.to_N (z mod 256))) as [b|] eqn:E.
  - apply Byte.to_of_N in E. rewrite E. lia.
  - apply Byte.of_N_None_iff in E. lia.
Qed.

Lemma Z_to_byte_mod (z : Z) : Z_to_byte (z mod 256) = Z_to_byte z.
Proof.
  unfold Z_to_byte. now rewrite Z.mod_mod by lia.
Qed.

Lemma Z_to_byte_land_ff (z : Z) : Z_to_byte (Z.land z 0xff) = Z_to_byte z.
Proof.
  change 0xff with (Z.ones 8). rewrite Z.land_ones by lia.
  apply Z_to_byte_mod.
Qed.

Lemma length_be_bytes (n : nat) (z : Z) : List.length (be_bytes n z) = n.
Proof.
  induction n as [|n IH]; simpl; congruence.
Qed.

Lemma be_decode_from (ys : list byte) (acc : Z) :
  fold_left (fun a b => a * 256 + byte_to_Z b) ys acc
  = acc * 256 ^ len ys + be_decode ys.
Proof.
  unfold be_decode. revert acc.
  induction ys as [|y ys IH]; intro acc.
  - unfold len. simpl. lia.
  - cbn [fold_left].
    rewrite (IH (acc * 256 + byte_to_Z y)), (IH (0 * 256 + byte_to_Z y)).
    unfold len. cbn [List.length].
    rewrite Nat2Z.inj_succ, Z.pow_succ_r by lia. lia.
Qed.

Lemma be_decode_app (xs ys : list byte) :
  be_decode (xs ++ ys) = be_decode xs * 256 ^ len ys + be_decode ys.
Proof.
  unfold be_decode at 1. rewrite fold_left_app.
  apply be_decode_from.
Qed.

Lemma be_decode_single (b : byte) : be_decode [b] = byte_to_Z b.
Proof. reflexivity. Qed.

Lemma be_bytes_snoc (k : nat) (z : Z) :
  be_bytes (S k) z = be_bytes k (Z.shiftr z 8) ++ [Z_to_byte z].
Proof.
  induction k as [|k IH].
  - reflexivity.
  - change (be_bytes (S (S k)) z)
      with (Z_to_byte (Z.shiftr z (8 * Z.of_nat (S k))) :: be_bytes (S k) z).
    rewrite IH.
    change (be_bytes (S k) (Z.shiftr z 8))
      with (Z_to_byte (Z.shiftr (Z.shiftr z 8) (8 * Z.of_nat k))
              :: be_bytes k (Z.shiftr z 8)).
    rewrite Z.shiftr_shiftr by lia.
    replace (8 + 8 * Z.of_nat k) with (8 * Z.of_nat (S k)) by lia.
    reflexivity.
Qed.

Lemma be_decode_be_bytes (n : nat) (z : Z) :
  be_decode (be_bytes n z) = z mod 2 ^ (8 * Z.of_nat n).
Proof.
  revert z. induction n as [|n IH]; intro z.
  - simpl. now rewrite Z.mod_1_r.
  - rewrite be_bytes_snoc, be_decode_app, be_decode_single, IH, byte_to_Z_of_Z.
    unfold len. simpl List.length. change (256 ^ Z.of_nat 1) with 256.
    rewrite Z.shiftr_div_pow2 by lia. change (2 ^ 8) with 256.
    replace (8 * Z.of_nat (S n)) with (8 + 8 * Z.of_nat n) by lia.
    rewrite Z.pow_add_r by lia. change (2 ^ 8) with 256.
    rewrite Z.rem_mul_r by lia. lia.
Qed.

(** ** The loops with a turn budget have turns to spare *)

Lemma chunks_fuel (chunk : nat) (fuel1 fuel2 : nat) (p : list byte) :
  (0 < chunk)%nat ->
  (List.length p <= fuel1)%nat -> (List.length p <= fuel2)%nat ->
  chunks fuel1 chunk p = chunks fuel2 chunk p.
Proof.
  intro Hc. revert fuel2 p.
  induction fuel1 as [|fuel1 IH]; intros fuel2 p H1 H2.
  - destruct p; [|simpl in H1; lia].
    destruct fuel2; [reflexivity|]. cbn [chunks].
    destruct (chunk <=? List.length (@nil byte))%nat eqn:E; [|reflexivity].
    apply Nat.leb_le in E. simpl in E. lia.
  - destruct fuel2 as [|fuel2].
    + destruct p; [|simpl in H2; lia]. cbn [chunks].
      destruct (chunk <=? List.length (@nil byte))%nat eqn:E; [|reflexivity].
      apply Nat.leb_le in E. simpl in E. lia.
    + cbn [chunks].
      destruct (chunk <=? List.length p)%nat eqn:E; [|reflexivity].
      apply Nat.leb_le in E. f_equal.
      apply IH; rewrite length_skipn; lia.
Qed.

(** The blocks are consecutive pieces of the input. *)
Lemma blocks_cons (chunk : nat) (p : list byte) :
  (0 < chunk <= List.length p)%nat ->
  blocks chunk p = firstn chunk p :: blocks chunk (skipn chunk p).
Proof.
  intros [Hc Hp]. unfold blocks.
  destruct (List.length p) as [|n] eqn:En; [lia|].
  cbn [chunks]. rewrite En.
  apply Nat.leb_le in Hp. rewrite Hp. apply Nat.leb_le in Hp.
  f_equal. apply chunks_fuel; rewrite ?length_skipn; lia.
Qed.

Lemma readQuantum_consumes (src : list byte) :
  forall (j : Z) (dbuf dbuf' : list Z) (dlen : Z) (end_ : bool) (src' : list byte),
  base32.readQuantum src j dbuf = base32.Quantum dbuf' dlen end_ src' ->
  (List.length src' <= List.length src)%nat
  /\ (j < 8 -> (List.length src' < List.length src)%nat).
Proof.
  induction src as [|c src IH]; intros j dbuf dbuf' dlen end_ src' H;
    cbn [base32.readQuantum] in H.
  - destruct (8 <=? j) eqn:Ej; [|discriminate].
    inversion H; subst. apply Z.leb_le in Ej. split; [lia | intro; lia].
  - destruct (8 <=? j) eqn:Ej.
    + inversion H; subst. apply Z.leb_le in Ej. split; [lia | intro; lia].
    + destruct (Byte.eqb c base32.StdPadding && (2 <=? j) && (len src <? 8)).
      * destruct (len src + j <? 8 - 1); [discriminate|].
        destruct (base32.badPadding src (Z.to_nat (8 - 1 - j))); [discriminate|].
        destruct ((j =? 1) || (j =? 3) || (j =? 6)); [discriminate|].
        inversion H; subst. simpl. split; [lia | intro; lia].
      * cbv zeta in H.
        destruct (base32.decodeMap c =? 0xFF); [discriminate|].
        apply IH in H. simpl. split; [lia | intro; lia].
Qed.

Lemma decodeLoop_fuel (fuel1 fuel2 : nat) (src : list byte) (end_ : bool)
  (dst : list byte) :
  (List.length src < fuel1)%nat -> (List.length src < fuel2)%nat ->
  base32.decodeLoop fuel1 src end_ dst = base32.decodeLoop fuel2 src end_ dst.
Proof.
  revert fuel2 src end_ dst.
  induction fuel1 as [|fuel1 IH]; intros fuel2 src end_ dst H1 H2; [lia|].
  destruct fuel2 as [|fuel2]; [lia|].
  cbn [base32.decodeLoop].
  destruct ((0 <? len src) && negb end_); [|reflexivity].
  destruct (base32.readQuantum src 0 []) as [e|dbuf dlen end' src'] eqn:E;
    [reflexivity|].
  apply readQuantum_consumes in E. destruct E as [_ E].
  specialize (E ltac:(lia)).
  apply IH; lia.
Qed.

(** ** strconv.Itoa writes the decimal digits of its argument *)

Lemma decimal_from_acc (s : string) (acc : Z) :
  decimal_from acc s = acc * 10 ^ slen s + decimal_value s.
Proof.
  unfold decimal_value, slen. revert acc.
  induction s as [|c s IH]; intro acc.
  - simpl. lia.
  - cbn [decimal_from String.length].
    rewrite (IH (acc * 10 + digit_value c)), (IH (0 * 10 + digit_value c)).
    rewrite Nat2Z.inj_succ, Z.pow_succ_r by lia. lia.
Qed.

Lemma decimal_value_String (c : ascii) (s : string) :
  decimal_value (String c s) = digit_value c * 10 ^ slen s + decimal_value s.
Proof.
  unfold decimal_value at 1. cbn [decimal_from].
  rewrite decimal_from_acc. lia.
Qed.

Lemma digit_value_digit (d : Z) : 0 <= d < 10 -> digit_value (strconv.digit d) = d.
Proof.
  intro H. unfold digit_value, strconv.digit.
  rewrite nat_ascii_embedding by lia. lia.
Qed.

Lemma slen_String (c : ascii) (s : string) : slen (String c s) = 1 + slen s.
Proof. unfold slen. cbn [String.length]. lia. Qed.

Lemma formatBits_value (fuel : nat) :
  forall (u : Z) (acc : string),
  0 <= u < 10 ^ Z.of_nat fuel ->
  decimal_value (strconv.formatBits fuel u acc)
  = u * 10 ^ slen acc + decimal_value acc.
Proof.
  induction fuel as [|fuel IH]; intros u acc Hu.
  - simpl in Hu. cbn [strconv.formatBits]. assert (u = 0) by lia. subst u. lia.
  - cbn [strconv.formatBits].
    rewrite Nat2Z.inj_succ, Z.pow_succ_r in Hu by lia.
    pose proof (Z.div_mod u 10 ltac:(lia)) as Hdm.
    pose proof (Z.mod_pos_bound u 10 ltac:(lia)) as Hm.
    destruct (10 <=? u) eqn:E.
    + rewrite IH.
      * rewrite decimal_value_String, slen_String, digit_value_digit by lia.
        rewrite Z.pow_add_r by (unfold slen; lia). lia.
      * split; [apply Z.div_pos; lia | apply Z.div_lt_upper_bound; lia].
    + apply Z.leb_gt in E.
      rewrite decimal_value_String, digit_value_digit by lia. reflexivity.
Qed.

Lemma Itoa_value (i : Z) : 0 <= i < 10 ^ 20 -> decimal_value (strconv.Itoa i) = i.
Proof.
  intro H. unfold strconv.Itoa.
  destruct (i <? 0) eqn:E; [apply Z.ltb_lt in E; lia|].
  rewrite formatBits_value by (change (Z.of_nat 20) with 20; lia).
  unfold slen, decimal_value. simpl. lia.
Qed.

(** A number below [10^k] takes at most [k] characters, and exactly [k]
    when it is at least [10^(k-1)]. *)
Lemma formatBits_length (k : nat) :
  forall (fuel : nat) (u : Z) (acc : string),
  (1 <= k <= fuel)%nat ->
  0 <= u < 10 ^ Z.of_nat k ->
  slen (strconv.formatBits fuel u acc) <= Z.of_nat k + slen acc
  /\ (10 ^ (Z.of_nat k - 1) <= u ->
      slen (strconv.formatBits fuel u acc) = Z.of_nat k + slen acc)
  /\ ((2 <= k)%nat -> u < 10 ^ (Z.of_nat k - 1) ->
      slen (strconv.formatBits fuel u acc) < Z.of_nat k + slen acc).
Proof.
  induction k as [|k IH]; intros fuel u acc Hk Hu; [lia|].
  destruct fuel as [|fuel]; [lia|].
  cbn [strconv.formatBits].
  rewrite Nat2Z.inj_succ, Z.pow_succ_r in Hu by lia.
  replace (Z.of_nat (S k) - 1) with (Z.of_nat k) by lia.
  destruct (10 <=? u) eqn:E.
  - apply Z.leb_le in E.
    destruct k as [|k']; [simpl in Hu; lia|].
    set (k := S k') in *.
    assert (Hq : 0 <= u / 10 < 10 ^ Z.of_nat k).
    { split; [apply Z.div_pos; lia | apply Z.div_lt_upper_bound; lia]. }
    destruct (IH fuel (u / 10)
                (String (strconv.digit (u - u / 10 * 10)) acc)
                ltac:(lia) Hq) as [Hle [Heq Hlt]].
    rewrite slen_String in Hle, Heq, Hlt.
    assert (Hp : 10 ^ Z.of_nat k = 10 * 10 ^ (Z.of_nat k - 1)).
    { rewrite <- Z.pow_succ_r by lia. f_equal. lia. }
    split; [lia|]. split.
    + intro Hlow. rewrite Nat2Z.inj_succ.
      enough (slen (strconv.formatBits fuel (u / 10)
                      (String (strconv.digit (u - u / 10 * 10)) acc))
              = Z.of_nat k + (1 + slen acc)) by lia.
      apply Heq. apply Z.div_le_lower_bound; lia.
    + intros _ Hhigh. rewrite Nat2Z.inj_succ.
      enough (slen (strconv.formatBits fuel (u / 10)
                      (String (strconv.digit (u - u / 10 * 10)) acc))
              < Z.of_nat k + (1 + slen acc)) by lia.
      destruct k' as [|k'']; [subst k; simpl in Hhigh; lia|].
      apply Hlt; [subst k; lia|]. apply Z.div_lt_upper_bound; lia.
  - apply Z.leb_gt in E. rewrite slen_String.
    destruct k as [|k'].
    + simpl. split; [lia|]. split; [intro; lia | intro; lia].
    + assert (10 <= 10 ^ Z.of_nat (S k')).
      { rewrite Nat2Z.inj_succ, Z.pow_succ_r by lia.
        pose proof (Z.pow_pos_nonneg 10 (Z.of_nat k') ltac:(lia) ltac:(lia)). lia. }
      split; [lia|]. split; [intro; lia | intros _ _; lia].
Qed.

(** ** Digest lengths *)

Lemma sha1_Sum_length (data : list byte) : List.length (sha1.Sum data) = 20%nat.
Proof.
  unfold sha1.Sum.
  destruct (fold_left sha1.block _ _) as [[[[h0 h1] h2] h3] h4].
  now rewrite !length_app, !length_be_bytes.
Qed.

Lemma sha256_Sum_length (data : list byte) : List.length (sha256.Sum data) = 32%nat.
Proof.
  unfold sha256.Sum.
  destruct (fold_left sha256.block _ _) as [[[[[[[h0 h1] h2] h3] h4] h5] h6] h7].
  now rewrite !length_app, !length_be_bytes.
Qed.

Lemma sha512_Sum_length (data : list byte) : List.length (sha512.Sum data) = 64%nat.
Proof.
  unfold sha512.Sum.
  destruct (fold_left sha512.block _ _) as [[[[[[[h0 h1] h2] h3] h4] h5] h6] h7].
  now rewrite !length_app, !length_be_bytes.
Qed.

Lemma hash_Sum_length (value : Algorithm) (data : list byte) :
  List.length (hash.Sum (hashFunc_of value) data) = hash.Size (hashFunc_of value).
Proof.
  destruct value; simpl.
  - apply sha1_Sum_length.
  - apply sha256_Sum_length.
  - apply sha512_Sum_length.
Qed.

Lemma GenerateHMAC_length (value : Algorithm) (key data : list byte) :
  List.length (GenerateHMAC (hashFunc_of value) key data)
  = hash.Size (hashFunc_of value).
Proof.
  unfold GenerateHMAC, hmac.Sum. cbn [hmac.h hmac.Write hmac.New].
  apply hash_Sum_length.
Qed.

Lemma GenerateHMAC_len (value : Algorithm) (key data : list byte) :
  19 <= len (GenerateHMAC (hashFunc_of value) key data).
Proof.
  unfold len. rewrite GenerateHMAC_length.
  destruct value; simpl; lia.
Qed.

(** ** The counter bytes *)

Lemma length_set_index (s : list byte) (i : nat) (b : byte) :
  List.length (set_index s i b) = List.length s.
Proof.
  revert i. induction s as [|x s IH]; intros [|i]; simpl; auto.
Qed.

Lemma skipn_set_index (s : list byte) (i : nat) (b : byte) :
  (i < List.length s)%nat -> skipn i (set_index s i b) = b :: skipn (S i) s.
Proof.
  revert i. induction s as [|x s IH]; intros i Hi.
  - simpl in Hi. lia.
  - destruct i as [|i].
    + reflexivity.
    + cbn [set_index]. rewrite !skipn_cons. apply IH. simpl in Hi. lia.
Qed.

Lemma ConvertTime_loop_be_bytes (n : nat) (interval : Z) (data : list byte) :
  (n <= List.length data)%nat ->
  ConvertTime_loop n interval data = be_bytes n interval ++ skipn n data.
Proof.
  revert interval data. induction n as [|n IH]; intros interval data Hn.
  - reflexivity.
  - cbn [ConvertTime_loop].
    rewrite IH by (rewrite length_set_index; lia).
    rewrite skipn_set_index by lia.
    rewrite be_bytes_snoc, Z_to_byte_land_ff, <- app_assoc. reflexivity.
Qed.

Lemma ConvertTime_be_bytes (interval : Z) : ConvertTime interval = be_bytes 8 interval.
Proof.
  unfold ConvertTime. rewrite ConvertTime_loop_be_bytes by (simpl; lia).
  apply app_nil_r.
Qed.

Lemma ConvertTime_length (interval : Z) : List.length (ConvertTime interval) = 8%nat.
Proof.
  rewrite ConvertTime_be_bytes. apply length_be_bytes.
Qed.

Lemma ConvertTime_decode (interval : Z) :
  be_decode (ConvertTime interval) = interval mod 2 ^ 64.
Proof.
  rewrite ConvertTime_be_bytes, be_decode_be_bytes. reflexivity.
Qed.

Lemma to_int64_mod (c : Z) : to_int64 c mod 2 ^ 64 = c mod 2 ^ 64.
Proof.
  unfold to_int64, wrap_signed.
  change (2 ^ (64 - 1)) with (2 ^ 63).
  rewrite (Z.mod_eq (c + 2 ^ 63) (2 ^ 64)) by lia.
  replace (c + 2 ^ 63 - 2 ^ 64 * ((c + 2 ^ 63) / 2 ^ 64) - 2 ^ 63)
    with (c + (- ((c + 2 ^ 63) / 2 ^ 64)) * 2 ^ 64) by lia.
  apply Z_mod_plus_full.
Qed.

(** The encoding is injective on [int64]. *)
Lemma ConvertTime_injective (i j : Z) :
  - 2 ^ 63 <= i < 2 ^ 63 -> - 2 ^ 63 <= j < 2 ^ 63 ->
  ConvertTime i = ConvertTime j -> i = j.
Proof.
  intros Hi Hj E.
  apply (f_equal be_decode) in E. rewrite !ConvertTime_decode in E.
  rewrite (Z.mod_eq i), (Z.mod_eq j) in E by lia.
  assert (Hqi : -1 <= i / 2 ^ 64 <= 0).
  { split; [apply Z.div_le_lower_bound | apply Z.lt_succ_r, Z.div_lt_upper_bound]; lia. }
  assert (Hqj : -1 <= j / 2 ^ 64 <= 0).
  { split; [apply Z.div_le_lower_bound | apply Z.lt_succ_r, Z.div_lt_upper_bound]; lia. }
  lia.
Qed.

(** ** Index expressions *)

Lemma index_in_range (s : list byte) (i : Z) :
  0 <= i < len s -> index s i = Returned (nth (Z.to_nat i) s x00).
Proof.
  intros [H0 H1]. unfold index.
  apply Z.leb_le in H0. apply Z.ltb_lt in H1. now rewrite H0, H1.
Qed.

Lemma index_out_of_range (s : list byte) (i : Z) :
  ~ (0 <= i < len s) -> index s i = Panicked (IndexOutOfRange i (len s)).
Proof.
  intro H. unfold index.
  destruct (0 <=? i) eqn:E0; destruct (i <? len s) eqn:E1; try reflexivity.
  apply Z.leb_le in E0. apply Z.ltb_lt in E1. lia.
Qed.

Lemma nth_last_index (s : list byte) :
  s <> [] -> nth (Z.to_nat (len s - 1)) s x00 = last s x00.
Proof.
  intro Hs.
  rewrite (app_removelast_last x00 Hs) at 1 2.
  unfold len. rewrite length_app. cbn [List.length].
  replace (Z.to_nat (Z.of_nat (List.length (removelast s) + 1) - 1))
    with (List.length (removelast s)) by lia.
  apply nth_middle.
Qed.

(** ** Bit operations against arithmetic *)

Lemma lor_disjoint_add (k lo n : Z) :
  0 <= n -> 0 <= lo < 2 ^ n -> Z.lor (k * 2 ^ n) lo = k * 2 ^ n + lo.
Proof.
  intros Hn Hlo.
  assert (Hd : Z.land (k * 2 ^ n) lo = 0).
  { apply Z.bits_inj'. intros i Hi.
    rewrite Z.land_spec, Z.bits_0, <- Z.shiftl_mul_pow2 by lia.
    destruct (Z.lt_ge_cases i n) as [Hlt|Hge].
    - now rewrite Z.shiftl_spec_low.
    - rewrite <- (Z.mod_small lo (2 ^ n)) by lia.
      rewrite Z.mod_pow2_bits_high by lia. apply andb_false_r. }
  rewrite <- Z.lxor_lor by exact Hd.
  symmetry. now apply Z.add_nocarry_lxor.
Qed.

Lemma land_7f (b : Z) : Z.land b 0x7f = b mod 128.
Proof. change 0x7f with (Z.ones 7). now rewrite Z.land_ones by lia. Qed.

Lemma land_ff (b : Z) : Z.land b 0xff = b mod 256.
Proof. change 0xff with (Z.ones 8). now rewrite Z.land_ones by lia. Qed.

Lemma land_0f (b : Z) : Z.land b 0x0f = b mod 16.
Proof. change 0x0f with (Z.ones 4). now rewrite Z.land_ones by lia. Qed.

Lemma truncation_offset_range (digest : list byte) :
  0 <= truncation_offset digest <= 15.
Proof.
  unfold truncation_offset.
  pose proof (Z.mod_pos_bound (byte_to_Z (last digest x00)) 16). lia.
Qed.

Lemma digest_byte_range (digest : list byte) (i : Z) :
  0 <= digest_byte digest i < 256.
Proof. apply byte_to_Z_range. Qed.

Lemma dynamic_truncation_range (digest : list byte) :
  0 <= dynamic_truncation digest <= 2 ^ 31 - 1.
Proof.
  unfold dynamic_truncation.
  set (o := truncation_offset digest).
  pose proof (Z.mod_pos_bound (digest_byte digest o) 128).
  pose proof (digest_byte_range digest (o + 1)).
  pose proof (digest_byte_range digest (o + 2)).
  pose proof (digest_byte_range digest (o + 3)).
  change (2 ^ 24) with 16777216. change (2 ^ 16) with 65536.
  change (2 ^ 8) with 256. change (2 ^ 31) with 2147483648.
  lia.
Qed.

(** The word assembled with shifts and ORs is the big-endian number. *)
Lemma truncation_word (b0 b1 b2 b3 : byte) :
  Z.lor (Z.lor (Z.lor
     (Z.shiftl (Z.land (byte_to_Z b0) 0x7f) 24)
     (Z.shiftl (Z.land (byte_to_Z b1) 0xff) 16))
     (Z.shiftl (Z.land (byte_to_Z b2) 0xff) 8))
     (Z.land (byte_to_Z b3) 0xff)
  = (byte_to_Z b0 mod 128) * 2 ^ 24 + byte_to_Z b1 * 2 ^ 16
    + byte_to_Z b2 * 2 ^ 8 + byte_to_Z b3.
Proof.
  pose proof (byte_to_Z_range b0) as H0. pose proof (byte_to_Z_range b1) as H1.
  pose proof (byte_to_Z_range b2) as H2. pose proof (byte_to_Z_range b3) as H3.
  rewrite land_7f, !land_ff, !(Z.mod_small _ 256) by assumption.
  rewrite !Z.shiftl_mul_pow2 by lia.
  set (a := byte_to_Z b0 mod 128). set (b := byte_to_Z b1).
  set (c := byte_to_Z b2). set (d := byte_to_Z b3).
  assert (Ha : 0 <= a < 128) by (apply Z.mod_pos_bound; lia).
  rewrite (lor_disjoint_add a (b * 2 ^ 16) 24) by lia.
  replace (a * 2 ^ 24 + b * 2 ^ 16) with ((a * 2 ^ 8 + b) * 2 ^ 16) by lia.
  rewrite (lor_disjoint_add (a * 2 ^ 8 + b) (c * 2 ^ 8) 16) by lia.
  replace ((a * 2 ^ 8 + b) * 2 ^ 16 + c * 2 ^ 8)
    with ((a * 2 ^ 16 + b * 2 ^ 8 + c) * 2 ^ 8) by lia.
  rewrite (lor_disjoint_add (a * 2 ^ 16 + b * 2 ^ 8 + c) d 8) by lia.
  lia.
Qed.

(** ** Dynamic truncation *)

Lemma byte_add_small (offset k : Z) :
  0 <= offset <= 15 -> 0 <= k <= 3 -> byte_add offset k = offset + k.
Proof.
  intros Ho Hk. unfold byte_add. apply Z.mod_small. lia.
Qed.

Lemma HashTruncation_offset (hash : list byte) :
  hash <> [] ->
  HashTruncation hash =
    (let offset := truncation_offset hash in
     b0 <- index hash offset ;;
     b1 <- index hash (offset + 1) ;;
     b2 <- index hash (offset + 2) ;;
     b3 <- index hash (offset + 3) ;;
     Returned
       ((byte_to_Z b0 mod 128) * 2 ^ 24 + byte_to_Z b1 * 2 ^ 16
        + byte_to_Z b2 * 2 ^ 8 + byte_to_Z b3)).
Proof.
  intro Hne. unfold HashTruncation.
  assert (Hlen : 0 < len hash).
  { unfold len. destruct hash; [congruence | simpl; lia]. }
  rewrite index_in_range by lia. cbn [bind].
  rewrite (nth_last_index hash Hne), land_0f.
  fold (truncation_offset hash).
  pose proof (truncation_offset_range hash) as Ho.
  rewrite !byte_add_small by lia.
  cbv zeta.
  destruct (index hash (truncation_offset hash)) as [b0|]; [|reflexivity].
  destruct (index hash (truncation_offset hash + 1)) as [b1|]; [|reflexivity].
  destruct (index hash (truncation_offset hash + 2)) as [b2|]; [|reflexivity].
  destruct (index hash (truncation_offset hash + 3)) as [b3|]; [|reflexivity].
  cbn [bind]. now rewrite truncation_word.
Qed.

Lemma HashTruncation_returns (hash : list byte) :
  truncation_offset hash + 4 <= len hash ->
  HashTruncation hash = Returned (dynamic_truncation hash).
Proof.
  intro Hlen.
  pose proof (truncation_offset_range hash) as Ho.
  assert (Hne : hash <> []).
  { intro E. subst hash. unfold len in Hlen. simpl in Hlen. lia. }
  rewrite (HashTruncation_offset hash Hne). cbv zeta.
  rewrite !index_in_range by lia. reflexivity.
Qed.

Lemma HashTruncation_panics (hash : list byte) :
  len hash < truncation_offset hash + 4 ->
  exists i, HashTruncation hash = Panicked (IndexOutOfRange i (len hash))
            /\ ~ (0 <= i < len hash).
Proof.
  intro Hshort.
  pose proof (truncation_offset_range hash) as Ho.
  destruct hash as [|b hash'] eqn:Eh.
  - exists (-1). split; [reflexivity | unfold len; simpl; lia].
  - rewrite <- Eh in *.
    assert (Hne : hash <> []) by (rewrite Eh; discriminate).
    rewrite (HashTruncation_offset hash Hne). cbv zeta.
    set (o := truncation_offset hash) in *.
    destruct (Z_lt_dec o (len hash)) as [H0|H0].
    2:{ exists o. rewrite (index_out_of_range hash o) by lia.
        split; [reflexivity | lia]. }
    rewrite (index_in_range hash o) by lia. cbn [bind].
    destruct (Z_lt_dec (o + 1) (len hash)) as [H1|H1].
    2:{ exists (o + 1). rewrite (index_out_of_range hash (o + 1)) by lia.
        split; [reflexivity | lia]. }
    rewrite (index_in_range hash (o + 1)) by lia. cbn [bind].
    destruct (Z_lt_dec (o + 2) (len hash)) as [H2|H2].
    2:{ exists (o + 2). rewrite (index_out_of_range hash (o + 2)) by lia.
        split; [reflexivity | lia]. }
    rewrite (index_in_range hash (o + 2)) by lia. cbn [bind].
    exists (o + 3). rewrite (index_out_of_range hash (o + 3)) by lia.
    split; [reflexivity | lia].
Qed.

Lemma HashTruncation_of_HMAC (value : Algorithm) (key data : list byte) :
  HashTruncation (GenerateHMAC (hashFunc_of value) key data)
  = Returned (dynamic_truncation (GenerateHMAC (hashFunc_of value) key data)).
Proof.
  apply HashTruncation_returns.
  pose proof (GenerateHMAC_len value key data).
  pose proof (truncation_offset_range (GenerateHMAC (hashFunc_of value) key data)).
  lia.
Qed.

(** ** The divisor *)

Lemma divisor_loop_nonpositive (digits : Z) : digits <= 0 -> divisor_loop digits = 1.
Proof.
  intro H. unfold divisor_loop.
  replace (Z.to_nat digits) with 0%nat by lia. reflexivity.
Qed.

Lemma divisor_turns_exact :
  forallb (fun n => divisor_turns n =? 10 ^ Z.of_nat n) (seq 0 19) = true.
Proof. vm_compute. reflexivity. Qed.

Lemma divisor_turns_nonzero :
  forallb (fun n => negb (divisor_turns n =? 0)) (seq 0 64) = true.
Proof. vm_compute. reflexivity. Qed.

(** Up to eighteen digits the product does not wrap. *)
Lemma divisor_loop_pow (digits : Z) :
  0 <= digits <= 18 -> divisor_loop digits = 10 ^ digits.
Proof.
  intro H. pose proof divisor_turns_exact as E.
  rewrite forallb_forall in E.
  specialize (E (Z.to_nat digits)).
  rewrite Z2Nat.id in E by lia.
  apply Z.eqb_eq, E, in_seq. lia.
Qed.

Lemma divisor_loop_nonzero (digits : Z) : digits < 64 -> divisor_loop digits <> 0.
Proof.
  intro H. pose proof divisor_turns_nonzero as E.
  rewrite forallb_forall in E.
  specialize (E (Z.to_nat digits)).
  assert (Hin : In (Z.to_nat digits) (seq 0 64)) by (apply in_seq; lia).
  apply E, negb_true_iff, Z.eqb_neq in Hin. exact Hin.
Qed.

(** From sixty-four digits on, the wrapped product is zero: 2^64 divides
    10^64. *)
Lemma divisor_loop_zero (digits : Z) : 64 <= digits -> divisor_loop digits = 0.
Proof.
  intro H. unfold divisor_loop, divisor_turns.
  replace (Z.to_nat digits) with (Z.to_nat (digits - 64) + 64)%nat by lia.
  rewrite Nat.iter_add.
  replace (Nat.iter 64 (fun divisor => wrap_int (divisor * 10)) 1) with 0
    by (vm_compute; reflexivity).
  induction (Z.to_nat (digits - 64)) as [|n IH]; [reflexivity|].
  rewrite Nat.iter_succ, IH. reflexivity.
Qed.

(** ** The pipeline *)

(** What [generateTOTP] computes, stage by stage. *)
Lemma generateTOTP_stages (secret : string) (value : Algorithm) (digits now : Z) :
  generateTOTP secret (hashFunc_of value) digits now =
  match DecodeBase32 secret with
  | (_, Some e) => Returned (EmptyString, Some e)
  | (key, None) =>
      let hash := GenerateHMAC (hashFunc_of value) key (ConvertTime (interval_of now)) in
      if 64 <=? digits then Panicked IntegerDivideByZero
      else Returned (strconv.Itoa (Z.rem (dynamic_truncation hash) (divisor_loop digits)),
                     None)
  end.
Proof.
  unfold generateTOTP.
  destruct (DecodeBase32 secret) as [key [e|]]; [reflexivity|].
  cbv zeta. rewrite HashTruncation_of_HMAC. cbn [bind]. unfold rem_int.
  destruct (64 <=? digits) eqn:E.
  - apply Z.leb_le in E. now rewrite divisor_loop_zero by lia.
  - apply Z.leb_gt in E.
    pose proof (divisor_loop_nonzero digits E) as Hnz.
    apply Z.eqb_neq in Hnz. now rewrite Hnz.
Qed.

Lemma generateTOTP_decoded (secret : string) (value : Algorithm) (digits now : Z)
  (key : list byte) :
  DecodeBase32 secret = (key, None) -> digits < 64 ->
  generateTOTP secret (hashFunc_of value) digits now =
  Returned
    (strconv.Itoa
       (Z.rem (dynamic_truncation
                 (GenerateHMAC (hashFunc_of value) key (ConvertTime (interval_of now))))
              (divisor_loop digits)),
     None).
Proof.
  intros Hd Hdig. rewrite generateTOTP_stages, Hd. cbv zeta.
  apply Z.leb_gt in Hdig. now rewrite Hdig.
Qed.

Lemma no_such_failure (k : ErrorKind) (f : option failure) :
  k <> InvalidEncoding -> ~ fails_with k f.
Proof.
  intros Hk [x [_ Hx]]. destruct x as [[]|p]; simpl in Hx; congruence.
Qed.

(** The code for up to eighteen digits: the decimal digits of the truncated
    value modulo [10^digits], without leading zeros.  Its length is [digits]
    only when that remainder is at least [10^(digits-1)]. *)
Lemma code_length_and_value (secret : string) (value : Algorithm) (digits now : Z)
  (key : list byte) :
  DecodeBase32 secret = (key, None) ->
  1 <= digits <= 18 ->
  let v := dynamic_truncation
             (GenerateHMAC (hashFunc_of value) key (ConvertTime (interval_of now)))
           mod 10 ^ digits in
  exists code,
    generateTOTP secret (hashFunc_of value) digits now = Returned (code, None)
    /\ decimal_value code = v
    /\ slen code <= digits
    /\ (10 ^ (digits - 1) <= v -> slen code = digits)
    /\ (2 <= digits -> v < 10 ^ (digits - 1) -> slen code < digits).
Proof.
  intros Hd Hdig v.
  rewrite (generateTOTP_decoded secret value digits now key Hd) by lia.
  rewrite divisor_loop_pow by lia.
  set (t := dynamic_truncation _) in *.
  pose proof (dynamic_truncation_range
                (GenerateHMAC (hashFunc_of value) key (ConvertTime (interval_of now))))
    as Ht. fold t in Ht.
  assert (Hpos : 0 < 10 ^ digits) by (apply Z.pow_pos_nonneg; lia).
  rewrite Z.rem_mod_nonneg by lia. fold v.
  assert (Hv : 0 <= v < 10 ^ digits) by (apply Z.mod_pos_bound; lia).
  assert (Hv20 : v < 10 ^ 20).
  { apply Z.lt_le_trans with (10 ^ digits); [lia|].
    apply Z.pow_le_mono_r; lia. }
  eexists. split; [reflexivity|].
  split; [apply Itoa_value; lia|].
  unfold strconv.Itoa.
  destruct (v <? 0) eqn:E; [apply Z.ltb_lt in E; lia|].
  destruct (formatBits_length (Z.to_nat digits) 20 v EmptyString ltac:(lia)
              ltac:(rewrite Z2Nat.id by lia; lia)) as [Hle [Heq Hlt]].
  rewrite Z2Nat.id in Hle, Heq, Hlt by lia.
  change (slen EmptyString) with 0 in Hle, Heq, Hlt.
  split; [lia|]. split.
  - intro H. rewrite Heq by exact H. lia.
  - intros H2 H. specialize (Hlt ltac:(lia) H). lia.
Qed.

(** ** Known answers of the library models *)

Example sha1_abc :
  be_decode (sha1.Sum (list_byte_of_string "abc"))
  = 0xa9993e364706816aba3e25717850c26c9cd0d89d.
Proof. vm_compute. reflexivity. Qed.

Example sha256_abc :
  be_decode (sha256.Sum (list_byte_of_string "abc"))
  = 0xba7816bf8f01cfea414140de5dae2223b00361a396177a9cb410ff61f20015ad.
Proof. vm_compute. reflexivity. Qed.

Example sha512_abc :
  be_decode (sha512.Sum (list_byte_of_string "abc"))
  = 0xddaf35a193617abacc417349ae20413112e6fa4e89a97ea20a9eeee64b55d39a2192992a274fc1a836ba3c23a3feebbd454d4423643ce80e2a9ac94fa54ca49f.
Proof. vm_compute. reflexivity. Qed.

(** RFC 2202, test case 1 of HMAC-SHA-1: a key of twenty bytes 0x0b. *)
Example hmac_sha1_rfc2202 :
  be_decode (GenerateHMAC sha1.New (repeat x0b 20) (list_byte_of_string "Hi There"))
  = 0xb617318655057264e28bc0b6fb378c8ef146be00.
Proof. vm_compute. reflexivity. Qed.

(** RFC 4231, test case 6 of HMAC-SHA-256: a key of 131 bytes 0xaa, longer
    than the block. *)
Example hmac_sha256_rfc4231 :
  be_decode (GenerateHMAC sha256.New (repeat xaa 131)
               (list_byte_of_string "Test Using Larger Than Block-Size Key - Hash Key First"))
  = 0x60e431591ee0b67f0d8a26aacbf5b77f8e0bc6213728c5140546040f0ee37f54.
Proof. vm_compute. reflexivity. Qed.

(** Messages whose padding spills into a further block, and a message of
    several blocks. *)
Example sha1_padding_edge :
  be_decode (sha1.Sum (repeat "a"%byte 56))
  = 0xc2db330f6083854c99d4b5bfb6e8f29f201be699.
Proof. vm_compute. reflexivity. Qed.

Example sha256_block_sized :
  be_decode (sha256.Sum (repeat "a"%byte 64))
  = 0xffe054fe7ae0cb6dc65c3af9b61d5209f439851db43d0ba5997337df154668eb.
Proof. vm_compute. reflexivity. Qed.

Example sha512_padding_edge :
  be_decode (sha512.Sum (repeat "a"%byte 112))
  = 0xc01d080efd492776a1c43bd23dd99d0a2e626d481e16782e75d54c2503b5dc32bd05f0f1ba33e568b88fd2d970929b719ecbb152f58f130a407c8830604b70ca.
Proof. vm_compute. reflexivity. Qed.

Example sha1_several_blocks :
  be_decode (sha1.Sum (repeat "a"%byte 200))
  = 0xe61cfffe0d9195a525fc6cf06ca2d77119c24a40.
Proof. vm_compute. reflexivity. Qed.

Example sha512_several_blocks :
  be_decode (sha512.Sum (repeat "a"%byte 200))
  = 0x4b11459c33f52a22ee8236782714c150a3b2c60994e9acee17fe68947a3e6789f31e7668394592da7bef827cddca88c4e6f86e4df7ed1ae6cba71f3e98faee9f.
Proof. vm_compute. reflexivity. Qed.

(** RFC 4231, test case 6 of HMAC-SHA-512. *)
Example hmac_sha512_rfc4231 :
  be_decode (GenerateHMAC sha512.New (repeat xaa 131)
               (list_byte_of_string "Test Using Larger Than Block-Size Key - Hash Key First"))
  = 0x80b24263c7c1a3ebb71493c1dd7be8b49b46d1f41b4aeec1121b013783f8f3526b56d037e05f2598bd0fd2215d6a1e5295e64f73f63f0aec8b915a985d786598.
Proof. vm_compute. reflexivity. Qed.

(** RFC 6238, Appendix B, for SHA256 and SHA512 with their seeds of 32 and
    64 bytes, at 59 s and at 20000000000 s. *)
Example rfc6238_sha256_vectors :
  generateTOTP "GEZDGNBVGY3TQOJQGEZDGNBVGY3TQOJQGEZDGNBVGY3TQOJQGEZA===="
    sha256.New 8 59 = Returned ("46119246"%string, None)
  /\ generateTOTP "GEZDGNBVGY3TQOJQGEZDGNBVGY3TQOJQGEZDGNBVGY3TQOJQGEZA===="
    sha256.New 8 20000000000 = Returned ("77737706"%string, None).
Proof. split; vm_compute; reflexivity. Qed.

Example rfc6238_sha512_vectors :
  generateTOTP
    "GEZDGNBVGY3TQOJQGEZDGNBVGY3TQOJQGEZDGNBVGY3TQOJQGEZDGNBVGY3TQOJQGEZDGNBVGY3TQOJQGEZDGNBVGY3TQOJQGEZDGNA="
    sha512.New 8 59 = Returned ("90693936"%string, None)
  /\ generateTOTP
    "GEZDGNBVGY3TQOJQGEZDGNBVGY3TQOJQGEZDGNBVGY3TQOJQGEZDGNBVGY3TQOJQGEZDGNBVGY3TQOJQGEZDGNBVGY3TQOJQGEZDGNA="
    sha512.New 8 20000000000 = Returned ("47863826"%string, None).
Proof. split; vm_compute; reflexivity. Qed.

Example base32_foobar :
  base32.DecodeString "MZXW6YTBOI======" = (list_byte_of_string "foobar", None).
Proof. vm_compute. reflexivity. Qed.

Example base32_rfc6238_secret :
  DecodeBase32 rfc6238_secret = (list_byte_of_string "12345678901234567890", None).
Proof. vm_compute. reflexivity. Qed.

(** A secret with a character outside the alphabet is an [InvalidEncoding]
    failure. *)
Example invalid_secret_rejected :
  fails_with InvalidEncoding
    (generate_failure (generateTOTP "JBSWY3DPEHPK3PX1" sha1.New 6 59)).
Proof.
  exists (ErrorValue CorruptInputError). split; vm_compute; reflexivity.
Qed.

(** ** Known-answer vectors *)

(** C1: with the secret of RFC 6238, SHA1 and eight digits, the code at 59 s
    is 94287082 and the code at 1111111111 s is 14050471; at 1111111109 s,
    where the RFC lists 07081804, [generateTOTP] returns the seven
    characters 7081804, the leading zero being dropped. *)
Theorem rfc6238_sha1_vectors :
  generateTOTP rfc6238_secret (hashFunc_of SHA1) 8 59
    = Returned ("94287082"%string, None)
  /\ generateTOTP rfc6238_secret (hashFunc_of SHA1) 8 1111111109
    = Returned ("7081804"%string, None)
  /\ generateTOTP rfc6238_secret (hashFunc_of SHA1) 8 1111111111
    = Returned ("14050471"%string, None).
Proof.
  split; [|split]; vm_compute; reflexivity.
Qed.

(** C2: the returned code can be shorter than [digits]: with the secret of
    RFC 6238, SHA1 and six digits at 1111111109 s the remainder is 81804 and
    the code has five characters. *)
Theorem code_shorter_than_digits :
  exists code,
    generateTOTP rfc6238_secret (hashFunc_of SHA1) 6 1111111109
      = Returned (code, None)
    /\ code = "81804"%string
    /\ String.length code = 5%nat.
Proof.
  exists "81804"%string.
  split; [vm_compute; reflexivity | split; reflexivity].
Qed.

(** ** Dynamic truncation of an HMAC digest *)

(** C3: for the digest of each of the three hash functions,
    [HashTruncation] returns the number made of the four bytes at
    [offset .. offset+3], most significant first and the first one reduced to
    its low seven bits, where [offset] is the value of the low four bits of
    the last byte; the four bytes lie inside the digest and the result is
    between 0 and 2^31 - 1. *)
Theorem HashTruncation_dynamic_truncation (value : Algorithm) (key data : list byte) :
  let digest := GenerateHMAC (hashFunc_of value) key data in
  let offset := Z.land (byte_to_Z (last digest x00)) 0x0f in
  offset = truncation_offset digest
  /\ 0 <= offset <= 15
  /\ offset + 3 < len digest
  /\ HashTruncation digest = Returned (dynamic_truncation digest)
  /\ 0 <= dynamic_truncation digest <= 2 ^ 31 - 1.
Proof.
  intros digest offset. subst offset. rewrite land_0f.
  fold (truncation_offset digest).
  pose proof (truncation_offset_range digest) as Ho.
  pose proof (GenerateHMAC_len value key data) as Hl. fold digest in Hl.
  split; [reflexivity|]. split; [lia|]. split; [lia|]. split.
  - apply HashTruncation_of_HMAC.
  - apply dynamic_truncation_range.
Qed.

(** ** Digit counts outside 6, 7, 8 *)

(** C4, as the code has it: a digit count outside 6, 7, 8 is not rejected.
    When the secret decodes and the count is below 64, [generateTOTP] returns
    a nil error and the decimal text of the truncated value's remainder by
    the divisor the loop computes. *)
Theorem other_digit_counts_accepted (secret : string) (value : Algorithm)
  (digits now : Z) (key : list byte) :
  DecodeBase32 secret = (key, None) ->
  ~ In digits [6; 7; 8] ->
  digits < 64 ->
  generateTOTP secret (hashFunc_of value) digits now =
    Returned
      (strconv.Itoa
         (Z.rem (dynamic_truncation
                   (GenerateHMAC (hashFunc_of value) key (ConvertTime (interval_of now))))
                (divisor_loop digits)),
       None)
  /\ ~ fails_with UnsupportedDigitCount
         (generate_failure (generateTOTP secret (hashFunc_of value) digits now)).
Proof.
  intros Hd _ Hdig. split.
  - now apply generateTOTP_decoded.
  - apply no_such_failure. discriminate.
Qed.

Lemma other_digit_counts_accepted_witness :
  DecodeBase32 rfc6238_secret = (list_byte_of_string "12345678901234567890", None)
  /\ ~ In 5 [6; 7; 8]
  /\ 5 < 64
  /\ generateTOTP rfc6238_secret (hashFunc_of SHA1) 5 59 =
       Returned
         (strconv.Itoa
            (Z.rem (dynamic_truncation
                      (GenerateHMAC (hashFunc_of SHA1)
                         (list_byte_of_string "12345678901234567890")
                         (ConvertTime (interval_of 59))))
                   (divisor_loop 5)),
          None).
Proof.
  assert (Hd : DecodeBase32 rfc6238_secret
               = (list_byte_of_string "12345678901234567890", None))
    by (vm_compute; reflexivity).
  assert (Hn : ~ In 5 [6; 7; 8]) by (simpl; lia).
  assert (Hl : 5 < 64) by lia.
  split; [exact Hd|]. split; [exact Hn|]. split; [exact Hl|].
  exact (proj1 (other_digit_counts_accepted rfc6238_secret SHA1 5 59 _ Hd Hn Hl)).
Defined.

(** C4 fails for five digits: the call returns the code 87082 and no
    error. *)
Lemma five_digits_not_rejected :
  generateTOTP rfc6238_secret (hashFunc_of SHA1) 5 59 = Returned ("87082"%string, None)
  /\ ~ fails_with UnsupportedDigitCount
         (generate_failure (generateTOTP rfc6238_secret (hashFunc_of SHA1) 5 59)).
Proof.
  split.
  - vm_compute. reflexivity.
  - apply no_such_failure. discriminate.
Qed.

(** ** The time counter *)

(** C5: for a time [t] at or after the epoch, the bytes handed to the HMAC
    are the eight-byte big-endian encoding of [t / 30] rounded down, and
    read back as a big-endian number they are that counter; every 64-bit
    counter [c] is recovered from the eight bytes [ConvertTime] makes of
    it. *)
Theorem ConvertTime_big_endian (t c : Z) :
  0 <= t < 2 ^ 63 ->
  0 <= c < 2 ^ 64 ->
  ConvertTime (interval_of t) = be_bytes 8 (t / 30)
  /\ List.length (ConvertTime (interval_of t)) = 8%nat
  /\ be_decode (ConvertTime (interval_of t)) = t / 30
  /\ List.length (ConvertTime (to_int64 c)) = 8%nat
  /\ be_decode (ConvertTime (to_int64 c)) = c.
Proof.
  intros Ht Hc. unfold interval_of.
  rewrite Z.quot_div_nonneg by lia.
  assert (Hq : 0 <= t / 30 < 2 ^ 64).
  { split; [apply Z.div_pos; lia|].
    apply Z.div_lt_upper_bound; lia. }
  split; [apply ConvertTime_be_bytes|].
  split; [apply ConvertTime_length|].
  split; [rewrite ConvertTime_decode; apply Z.mod_small; exact Hq|].
  split; [apply ConvertTime_length|].
  rewrite ConvertTime_decode, to_int64_mod. now apply Z.mod_small.
Qed.

Lemma ConvertTime_big_endian_witness :
  0 <= 1111111109 < 2 ^ 63
  /\ 0 <= 18446744073709551615 < 2 ^ 64
  /\ be_decode (ConvertTime (interval_of 1111111109)) = 1111111109 / 30
  /\ be_decode (ConvertTime (to_int64 18446744073709551615)) = 18446744073709551615.
Proof.
  assert (Ht : 0 <= 1111111109 < 2 ^ 63) by lia.
  assert (Hc : 0 <= 18446744073709551615 < 2 ^ 64) by lia.
  pose proof (ConvertTime_big_endian 1111111109 18446744073709551615 Ht Hc) as H.
  split; [exact Ht|]. split; [exact Hc|].
  split; [exact (proj1 (proj2 (proj2 H))) | exact (proj2 (proj2 (proj2 (proj2 H))))].
Defined.

(** C6, as the code has it: a time before the epoch is not rejected.  The
    counter is [now / 30] rounded toward zero, its eight bytes are its
    two's-complement representation, and with a decoded secret and a digit
    count below 64 a code is returned with a nil error. *)
Theorem negative_time_accepted (secret : string) (value : Algorithm)
  (digits now : Z) (key : list byte) :
  DecodeBase32 secret = (key, None) ->
  - 2 ^ 63 <= now < 0 ->
  digits < 64 ->
  be_decode (ConvertTime (interval_of now)) = Z.quot now 30 mod 2 ^ 64
  /\ generateTOTP secret (hashFunc_of value) digits now =
       Returned
         (strconv.Itoa
            (Z.rem (dynamic_truncation
                      (GenerateHMAC (hashFunc_of value) key
                         (ConvertTime (Z.quot now 30))))
                   (divisor_loop digits)),
          None)
  /\ ~ fails_with InvalidTime
         (generate_failure (generateTOTP secret (hashFunc_of value) digits now)).
Proof.
  intros Hd _ Hdig.
  split; [apply ConvertTime_decode|].
  split; [now apply generateTOTP_decoded|].
  apply no_such_failure. discriminate.
Qed.

Lemma negative_time_accepted_witness :
  DecodeBase32 rfc6238_secret = (list_byte_of_string "12345678901234567890", None)
  /\ - 2 ^ 63 <= -60 < 0
  /\ 8 < 64
  /\ be_decode (ConvertTime (interval_of (-60))) = Z.quot (-60) 30 mod 2 ^ 64.
Proof.
  assert (Hd : DecodeBase32 rfc6238_secret
               = (list_byte_of_string "12345678901234567890", None))
    by (vm_compute; reflexivity).
  assert (Ht : - 2 ^ 63 <= -60 < 0) by lia.
  assert (Hl : 8 < 64) by lia.
  split; [exact Hd|]. split; [exact Ht|]. split; [exact Hl|].
  exact (proj1 (negative_time_accepted rfc6238_secret SHA1 8 (-60) _ Hd Ht Hl)).
Defined.

(** C6 fails one minute before the epoch: the counter -2 is encoded as
    0xFFFFFFFFFFFFFFFE and the call returns the code 89488204 and no
    error. *)
Lemma negative_time_not_rejected :
  be_decode (ConvertTime (interval_of (-60))) = 0xFFFFFFFFFFFFFFFE
  /\ generateTOTP rfc6238_secret (hashFunc_of SHA1) 8 (-60)
     = Returned ("89488204"%string, None)
  /\ ~ fails_with InvalidTime
         (generate_failure (generateTOTP rfc6238_secret (hashFunc_of SHA1) 8 (-60))).
Proof.
  split; [vm_compute; reflexivity|].
  split; [vm_compute; reflexivity|].
  apply no_such_failure. discriminate.
Qed.

(** ** The empty key *)

(** C7, as the code has it: a secret that decodes to zero bytes without a
    decoding error is not rejected.  The HMAC is computed with the empty key
    and, for a digit count below 64, its code is returned with a nil
    error. *)
Theorem empty_key_accepted (secret : string) (value : Algorithm) (digits now : Z) :
  DecodeBase32 secret = ([], None) ->
  digits < 64 ->
  generateTOTP secret (hashFunc_of value) digits now =
    Returned
      (strconv.Itoa
         (Z.rem (dynamic_truncation
                   (GenerateHMAC (hashFunc_of value) [] (ConvertTime (interval_of now))))
                (divisor_loop digits)),
       None)
  /\ ~ fails_with EmptySecret
         (generate_failure (generateTOTP secret (hashFunc_of value) digits now)).
Proof.
  intros Hd Hdig. split.
  - now apply generateTOTP_decoded.
  - apply no_such_failure. discriminate.
Qed.

Lemma empty_key_accepted_witness :
  DecodeBase32 EmptyString = ([], None)
  /\ 6 < 64
  /\ generateTOTP EmptyString (hashFunc_of SHA1) 6 59 =
       Returned
         (strconv.Itoa
            (Z.rem (dynamic_truncation
                      (GenerateHMAC (hashFunc_of SHA1) [] (ConvertTime (interval_of 59))))
                   (divisor_loop 6)),
          None).
Proof.
  assert (Hd : DecodeBase32 EmptyString = ([], None)) by reflexivity.
  assert (Hl : 6 < 64) by lia.
  split; [exact Hd|]. split; [exact Hl|].
  exact (proj1 (empty_key_accepted EmptyString SHA1 6 59 Hd Hl)).
Defined.

(** C7 fails for the empty secret: it decodes to no bytes and the call
    returns the code 812658 and no error. *)
Lemma empty_secret_not_rejected :
  DecodeBase32 EmptyString = ([], None)
  /\ generateTOTP EmptyString (hashFunc_of SHA1) 6 59
     = Returned ("812658"%string, None)
  /\ ~ fails_with EmptySecret
         (generate_failure (generateTOTP EmptyString (hashFunc_of SHA1) 6 59)).
Proof.
  split; [reflexivity|].
  split; [vm_compute; reflexivity|].
  apply no_such_failure. discriminate.
Qed.

(** ** Digests too short for their offset *)

(** C8, as the code has it: [HashTruncation] has no length check and no
    error result.  On a digest shorter than [offset + 4] (the empty digest
    included) an index expression is out of range and the call panics with
    Go's index-out-of-range run-time error, nothing being read outside the
    digest; on a digest of at least 19 bytes every index is in range and the
    truncated value is returned. *)
Theorem HashTruncation_bounds (short long : list byte) :
  len short < truncation_offset short + 4 ->
  19 <= len long ->
  (exists i, HashTruncation short = Panicked (IndexOutOfRange i (len short))
             /\ ~ (0 <= i < len short))
  /\ ~ fails_with DigestTooShort (truncation_failure (HashTruncation short))
  /\ truncation_offset long + 3 < len long
  /\ HashTruncation long = Returned (dynamic_truncation long).
Proof.
  intros Hs Hl.
  pose proof (truncation_offset_range long) as Ho.
  split; [now apply HashTruncation_panics|].
  split; [apply no_such_failure; discriminate|].
  split; [lia|].
  apply HashTruncation_returns. lia.
Qed.

Lemma HashTruncation_bounds_witness :
  len [x0f] < truncation_offset [x0f] + 4
  /\ 19 <= len (repeat xff 20)
  /\ (exists i, HashTruncation [x0f] = Panicked (IndexOutOfRange i (len [x0f]))
                /\ ~ (0 <= i < len [x0f]))
  /\ HashTruncation (repeat xff 20) = Returned (dynamic_truncation (repeat xff 20)).
Proof.
  assert (Hs : len [x0f] < truncation_offset [x0f] + 4) by (vm_compute; reflexivity).
  assert (Hl : 19 <= len (repeat xff 20)) by (vm_compute; discriminate).
  pose proof (HashTruncation_bounds [x0f] (repeat xff 20) Hs Hl) as H.
  split; [exact Hs|]. split; [exact Hl|].
  split; [exact (proj1 H) | exact (proj2 (proj2 (proj2 H)))].
Defined.

(** C8 fails on the one-byte digest 0x0f: offset 15 is out of range and the
    call panics; no [DigestTooShort] failure is reported. *)
Lemma short_digest_panics :
  HashTruncation [x0f] = Panicked (IndexOutOfRange 15 1)
  /\ ~ fails_with DigestTooShort (truncation_failure (HashTruncation [x0f])).
Proof.
  split; [reflexivity|].
  apply no_such_failure. discriminate.
Qed.

(** ** Where failures come from *)

(** C9, as the code has it: for a digit count below 64, [generateTOTP]
    returns an error exactly when the base-32 decoding of the secret fails,
    then with the empty code, and no later stage fails; from 64 digits on
    the divisor has wrapped to zero and, the secret being decoded, the
    remainder panics with an integer division by zero. *)
Theorem errors_from_decoding_below_64_digits (secret : string) (value : Algorithm)
  (digits big now : Z) :
  digits < 64 ->
  64 <= big ->
  errors_only_from_decoding secret value digits now
  /\ (snd (DecodeBase32 secret) = None ->
      generateTOTP secret (hashFunc_of value) big now = Panicked IntegerDivideByZero).
Proof.
  intros Hdig Hbig. split.
  - unfold errors_only_from_decoding. cbv zeta.
    rewrite generateTOTP_stages.
    destruct (DecodeBase32 secret) as [key [e|]]; cbn [snd]; cbv zeta.
    + split; [|split].
      * split; [discriminate|]. intros _. now exists EmptyString, e.
      * discriminate.
      * intros e' E. now inversion E.
    + apply Z.leb_gt in Hdig. rewrite Hdig.
      split; [|split].
      * split; [|congruence]. intros [code [e E]]. discriminate E.
      * intros _. eexists. reflexivity.
      * discriminate.
  - intro Hd. rewrite generateTOTP_stages.
    destruct (DecodeBase32 secret) as [key [e|]]; cbn [snd] in Hd; [discriminate|].
    cbv zeta. apply Z.leb_le in Hbig. now rewrite Hbig.
Qed.

Lemma errors_from_decoding_below_64_digits_witness :
  6 < 64
  /\ 64 <= 64
  /\ errors_only_from_decoding rfc6238_secret SHA1 6 59
  /\ generateTOTP rfc6238_secret (hashFunc_of SHA1) 64 59 = Panicked IntegerDivideByZero.
Proof.
  assert (H1 : 6 < 64) by lia.
  assert (H2 : 64 <= 64) by lia.
  pose proof (errors_from_decoding_below_64_digits rfc6238_secret SHA1 6 64 59 H1 H2) as H.
  split; [exact H1|]. split; [exact H2|].
  split; [exact (proj1 H)|].
  apply (proj2 H). vm_compute. reflexivity.
Defined.

(** C9 fails at 64 digits: the secret decodes, yet no code is returned; the
    call panics. *)
Lemma sixty_four_digits_panic :
  snd (DecodeBase32 rfc6238_secret) = None
  /\ generateTOTP rfc6238_secret (hashFunc_of SHA1) 64 59 = Panicked IntegerDivideByZero
  /\ ~ errors_only_from_decoding rfc6238_secret SHA1 64 59.
Proof.
  assert (Hd : snd (DecodeBase32 rfc6238_secret) = None) by (vm_compute; reflexivity).
  assert (Hp : generateTOTP rfc6238_secret (hashFunc_of SHA1) 64 59
               = Panicked IntegerDivideByZero) by (vm_compute; reflexivity).
  split; [exact Hd|]. split; [exact Hp|].
  intros [_ [Hok _]]. destruct (Hok Hd) as [code E].
  rewrite Hp in E. discriminate E.
Qed.

(** ** What the truncated value depends on *)

(** C10: two digests of equal length that have the same last byte, are at
    least [offset + 4] long and have the same four bytes at
    [offset .. offset+3] are truncated to the same value. *)
Theorem HashTruncation_depends_on_five_bytes (h1 h2 : list byte) :
  List.length h1 = List.length h2 ->
  last h1 x00 = last h2 x00 ->
  Z.land (byte_to_Z (last h1 x00)) 0x0f + 4 <= len h1 ->
  firstn 4 (skipn (Z.to_nat (Z.land (byte_to_Z (last h1 x00)) 0x0f)) h1)
  = firstn 4 (skipn (Z.to_nat (Z.land (byte_to_Z (last h1 x00)) 0x0f)) h2) ->
  exists v, HashTruncation h1 = Returned v /\ HashTruncation h2 = Returned v.
Proof.
  rewrite land_0f. fold (truncation_offset h1).
  intros Hlen Hlast Hoff Hfour.
  assert (Ho2 : truncation_offset h2 = truncation_offset h1)
    by (unfold truncation_offset; now rewrite Hlast).
  assert (Hl2 : len h2 = len h1) by (unfold len; now rewrite Hlen).
  pose proof (truncation_offset_range h1) as Ho.
  exists (dynamic_truncation h1). split.
  - now apply HashTruncation_returns.
  - rewrite HashTruncation_returns by lia. f_equal.
    unfold dynamic_truncation. rewrite Ho2.
    set (o := truncation_offset h1) in *.
    assert (Hb : forall k, 0 <= k < 4 -> digest_byte h2 (o + k) = digest_byte h1 (o + k)).
    { intros k Hk. unfold digest_byte.
      replace (Z.to_nat (o + k)) with (Z.to_nat o + Z.to_nat k)%nat by lia.
      rewrite <- !nth_skipn.
      assert (Hk4 : (Z.to_nat k <? 4)%nat = true) by (apply Nat.ltb_lt; lia).
      pose proof (nth_firstn 4 (skipn (Z.to_nat o) h1) (Z.to_nat k) x00) as E1.
      pose proof (nth_firstn 4 (skipn (Z.to_nat o) h2) (Z.to_nat k) x00) as E2.
      rewrite Hk4 in E1, E2. rewrite <- E1, <- E2, Hfour. reflexivity. }
    rewrite <- (Z.add_0_r o) at 1.
    rewrite (Hb 0), (Hb 1), (Hb 2), (Hb 3) by lia.
    now rewrite Z.add_0_r.
Qed.

Lemma HashTruncation_depends_on_five_bytes_witness :
  exists v,
    HashTruncation ([x01; x02; x03; x04; x05] ++ repeat x00 14 ++ [x21]) = Returned v
    /\ HashTruncation ([xaa; x02; x03; x04; x05] ++ repeat xbb 14 ++ [x21]) = Returned v.
Proof.
  apply HashTruncation_depends_on_five_bytes.
  - reflexivity.
  - reflexivity.
  - vm_compute. discriminate.
  - reflexivity.
Defined.


(** * Further properties of the code *)

(** ** GenerateHMAC *)

Lemma GenerateHMAC_block_key (hf : hash.Hash) (key data : list byte) :
  GenerateHMAC hf key data =
  hash.Sum hf (map (hmac.xor_pad 0x5c) (hmac_block_key hf key)
               ++ hash.Sum hf (map (hmac.xor_pad 0x36) (hmac_block_key hf key) ++ data)).
Proof. reflexivity. Qed.

Lemma hmac_block_key_zero_padded (hf : hash.Hash) (key : list byte) (n : nat) :
  (List.length key + n <= hash.BlockSize hf)%nat ->
  hmac_block_key hf (key ++ repeat x00 n) = hmac_block_key hf key.
Proof.
  intro H. unfold hmac_block_key.
  assert (E1 : (hash.BlockSize hf <? List.length (key ++ repeat x00 n))%nat = false).
  { apply Nat.ltb_ge. rewrite length_app, repeat_length. lia. }
  assert (E2 : (hash.BlockSize hf <? List.length key)%nat = false)
    by (apply Nat.ltb_ge; lia).
  rewrite E1, E2. cbv zeta.
  rewrite <- app_assoc, <- repeat_app, length_app, repeat_length.
  f_equal. f_equal. lia.
Qed.

Lemma hmac_block_key_long (value : Algorithm) (key : list byte) :
  (hash.BlockSize (hashFunc_of value) < List.length key)%nat ->
  hmac_block_key (hashFunc_of value) key
  = hmac_block_key (hashFunc_of value) (hash.Sum (hashFunc_of value) key).
Proof.
  intro H. unfold hmac_block_key.
  assert (E1 : (hash.BlockSize (hashFunc_of value) <? List.length key)%nat = true)
    by (apply Nat.ltb_lt; lia).
  assert (E2 : (hash.BlockSize (hashFunc_of value)
                <? List.length (hash.Sum (hashFunc_of value) key))%nat = false).
  { apply Nat.ltb_ge. rewrite hash_Sum_length. destruct value; cbv; lia. }
  rewrite E1, E2. reflexivity.
Qed.

(** X1: the digest [GenerateHMAC] returns has 20 bytes with SHA1, 32 with
    SHA256 and 64 with SHA512, whatever the key and the data, the empty key
    and the empty data included. *)
Theorem GenerateHMAC_digest_size (value : Algorithm) (key data : list byte) :
  List.length (GenerateHMAC (hashFunc_of value) key data)
  = match value with SHA1 => 20 | SHA256 => 32 | SHA512 => 64 end%nat.
Proof.
  rewrite GenerateHMAC_length. destruct value; reflexivity.
Qed.

(** X2: a key longer than the block of the hash function (64 bytes for SHA1
    and SHA256, 128 for SHA512) gives the same digest as the hash of that
    key used as the key. *)
Theorem GenerateHMAC_long_key (value : Algorithm) (key data : list byte) :
  (hash.BlockSize (hashFunc_of value) < List.length key)%nat ->
  GenerateHMAC (hashFunc_of value) key data
  = GenerateHMAC (hashFunc_of value) (hash.Sum (hashFunc_of value) key) data.
Proof.
  intro H. rewrite !GenerateHMAC_block_key.
  now rewrite (hmac_block_key_long value key H).
Qed.

Lemma GenerateHMAC_long_key_witness :
  GenerateHMAC (hashFunc_of SHA1) (repeat xaa 65) [x01]
  = GenerateHMAC (hashFunc_of SHA1) (hash.Sum (hashFunc_of SHA1) (repeat xaa 65)) [x01].
Proof.
  apply (GenerateHMAC_long_key SHA1 (repeat xaa 65) [x01]).
  vm_compute. lia.
Defined.

(** X3: zero bytes appended to a key do not change the digest, as long as
    the key still fits the block of the hash function. *)
Theorem GenerateHMAC_trailing_zeros (hf : hash.Hash) (key data : list byte) (n : nat) :
  (List.length key + n <= hash.BlockSize hf)%nat ->
  GenerateHMAC hf (key ++ repeat x00 n) data = GenerateHMAC hf key data.
Proof.
  intro H. rewrite !GenerateHMAC_block_key.
  now rewrite (hmac_block_key_zero_padded hf key n H).
Qed.

Lemma GenerateHMAC_trailing_zeros_witness :
  GenerateHMAC sha256.New ([x01; x02] ++ repeat x00 3) [x07]
  = GenerateHMAC sha256.New [x01; x02] [x07].
Proof.
  apply (GenerateHMAC_trailing_zeros sha256.New [x01; x02] [x07] 3).
  vm_compute. lia.
Defined.

(** ** generateTOTP: keys, time windows and digit counts *)

(** X4: two secrets whose keys differ only by zero bytes at the end of one
    of them (within the block of the hash function) give the same result at
    every time and for every digit count. *)
Theorem generateTOTP_trailing_zero_key (s1 s2 : string) (hf : hash.Hash)
  (digits now : Z) (key : list byte) (n : nat) :
  DecodeBase32 s1 = (key, None) ->
  DecodeBase32 s2 = (key ++ repeat x00 n, None) ->
  (List.length key + n <= hash.BlockSize hf)%nat ->
  generateTOTP s1 hf digits now = generateTOTP s2 hf digits now.
Proof.
  intros H1 H2 Hn. unfold generateTOTP. rewrite H1, H2. cbv zeta.
  rewrite !GenerateHMAC_block_key.
  now rewrite (hmac_block_key_zero_padded hf key n Hn).
Qed.

Lemma generateTOTP_trailing_zero_key_witness :
  generateTOTP "JBSWY3DPEHPK3PXP" sha1.New 6 59
  = generateTOTP "JBSWY3DPEHPK3PXPAA======" sha1.New 6 59.
Proof.
  apply (generateTOTP_trailing_zero_key _ _ sha1.New 6 59
           (fst (DecodeBase32 "JBSWY3DPEHPK3PXP")) 1).
  - vm_compute. reflexivity.
  - vm_compute. reflexivity.
  - vm_compute. lia.
Defined.

Lemma interval_of_window (q r : Z) :
  0 <= q -> 0 <= r < 30 -> interval_of (30 * q + r) = q.
Proof.
  intros Hq Hr. unfold interval_of. symmetry.
  apply Z.quot_unique with (r := r); lia.
Qed.

(** X5: for times at or after the epoch, the counter bytes of two times are
    equal exactly when the times lie in the same 30-second window. *)
Theorem ConvertTime_same_window (t1 t2 : Z) :
  0 <= t1 < 2 ^ 63 -> 0 <= t2 < 2 ^ 63 ->
  (ConvertTime (interval_of t1) = ConvertTime (interval_of t2) <-> t1 / 30 = t2 / 30).
Proof.
  intros H1 H2. unfold interval_of.
  rewrite !Z.quot_div_nonneg by lia.
  assert (B1 : 0 <= t1 / 30 < 2 ^ 63).
  { split; [apply Z.div_pos; lia | apply Z.div_lt_upper_bound; lia]. }
  assert (B2 : 0 <= t2 / 30 < 2 ^ 63).
  { split; [apply Z.div_pos; lia | apply Z.div_lt_upper_bound; lia]. }
  split.
  - apply ConvertTime_injective; lia.
  - intro E. now rewrite E.
Qed.

Lemma ConvertTime_same_window_witness :
  (ConvertTime (interval_of 59) = ConvertTime (interval_of 30) <-> 59 / 30 = 30 / 30).
Proof.
  apply (ConvertTime_same_window 59 30); lia.
Defined.

(** X6: at or after the epoch the result of [generateTOTP] is the same at
    every second of a 30-second window: at [30*q + r] with [0 <= r < 30] it
    is the result at [30*q]. *)
Theorem generateTOTP_constant_in_window (secret : string) (hf : hash.Hash)
  (digits q r : Z) :
  0 <= q -> 0 <= r < 30 ->
  generateTOTP secret hf digits (30 * q + r) = generateTOTP secret hf digits (30 * q).
Proof.
  intros Hq Hr.
  assert (E : interval_of (30 * q + r) = interval_of (30 * q)).
  { rewrite (interval_of_window q r Hq Hr).
    replace (30 * q) with (30 * q + 0) by lia.
    now rewrite (interval_of_window q 0 Hq) by lia. }
  unfold generateTOTP. now rewrite E.
Qed.

Lemma generateTOTP_constant_in_window_witness :
  generateTOTP rfc6238_secret sha1.New 8 (30 * 1 + 29)
  = generateTOTP rfc6238_secret sha1.New 8 (30 * 1).
Proof.
  apply (generateTOTP_constant_in_window rfc6238_secret sha1.New 8 1 29); lia.
Defined.

(** X7: the division of the clock reading rounds toward zero, so the window
    around the epoch lasts 59 seconds: from 29 seconds before it to 29
    seconds after it the result is the one at the epoch. *)
Theorem generateTOTP_epoch_window (secret : string) (hf : hash.Hash) (digits now : Z) :
  - 30 < now < 30 ->
  generateTOTP secret hf digits now = generateTOTP secret hf digits 0.
Proof.
  intro H. unfold generateTOTP.
  assert (E : interval_of now = interval_of 0).
  { unfold interval_of. change (Z.quot 0 30) with 0.
    apply Z.quot_small_iff; lia. }
  now rewrite E.
Qed.

Lemma generateTOTP_epoch_window_witness :
  generateTOTP rfc6238_secret sha1.New 8 (-29)
  = generateTOTP rfc6238_secret sha1.New 8 0.
Proof.
  apply (generateTOTP_epoch_window rfc6238_secret sha1.New 8 (-29)); lia.
Defined.

Lemma divisor_turns_large :
  forallb (fun n => 2 ^ 31 <=? Z.abs (divisor_turns n)) (seq 10 54) = true.
Proof. vm_compute. reflexivity. Qed.

Lemma divisor_loop_large (digits : Z) :
  10 <= digits < 64 -> 2 ^ 31 <= Z.abs (divisor_loop digits).
Proof.
  intro H. pose proof divisor_turns_large as E.
  rewrite forallb_forall in E.
  apply Z.leb_le, E, in_seq. lia.
Qed.

Lemma rem_truncated_range (v d : Z) :
  0 <= v <= 2 ^ 31 - 1 -> d <> 0 -> 0 <= Z.rem v d <= 2 ^ 31 - 1.
Proof.
  intros Hv Hd.
  pose proof (Z.rem_bound_abs v d Hd) as Hb.
  destruct (Z.lt_ge_cases (Z.abs v) (Z.abs d)) as [Hs|Hs].
  - apply (Z.rem_small_iff v d Hd) in Hs. rewrite Hs. lia.
  - assert (Hn : 0 <= Z.rem v d).
    { destruct (Z.eq_dec v 0) as [->|Hv0]; [now rewrite Z.rem_0_l|].
      pose proof (Z.rem_sign v d Hv0 Hd) as Hsg.
      destruct (Z.rem v d) eqn:Er; lia. }
    lia.
Qed.

Lemma formatBits_nonempty (fuel : nat) (u : Z) (acc : string) :
  1 + slen acc <= slen (strconv.formatBits (S fuel) u acc).
Proof.
  revert u acc. induction fuel as [|fuel IH]; intros u acc.
  - cbn [strconv.formatBits]. destruct (10 <=? u); rewrite ?slen_String; lia.
  - change (strconv.formatBits (S (S fuel)) u acc)
      with (if 10 <=? u
            then strconv.formatBits (S fuel) (u / 10)
                   (String (strconv.digit (u - u / 10 * 10)) acc)
            else String (strconv.digit u) acc).
    destruct (10 <=? u).
    + specialize (IH (u / 10) (String (strconv.digit (u - u / 10 * 10)) acc)).
      rewrite slen_String in IH. lia.
    + rewrite slen_String. lia.
Qed.

Lemma Itoa_shape (n : Z) :
  0 <= n <= 2 ^ 31 - 1 ->
  decimal_value (strconv.Itoa n) = n /\ 1 <= slen (strconv.Itoa n) <= 10.
Proof.
  intro Hn. split.
  - apply Itoa_value. change (10 ^ 20) with 100000000000000000000.
    change (2 ^ 31) with 2147483648 in Hn. lia.
  - unfold strconv.Itoa.
    destruct (n <? 0) eqn:E; [apply Z.ltb_lt in E; lia|].
    pose proof (formatBits_nonempty 19 n EmptyString) as Hlow.
    destruct (formatBits_length 10 20 n EmptyString ltac:(lia)) as [Hle _].
    { change (10 ^ Z.of_nat 10) with 10000000000.
      change (2 ^ 31) with 2147483648 in Hn. lia. }
    change (slen EmptyString) with 0 in *. change (Z.of_nat 10) with 10 in Hle.
    lia.
Qed.

(** X8: with a digit count of zero or less the loop leaves the divisor at
    1, and for every secret that decodes the code is the single character
    0. *)
Theorem generateTOTP_nonpositive_digits (secret : string) (value : Algorithm)
  (digits now : Z) (key : list byte) :
  DecodeBase32 secret = (key, None) ->
  digits <= 0 ->
  generateTOTP secret (hashFunc_of value) digits now = Returned ("0"%string, None).
Proof.
  intros Hd Hdig.
  rewrite (generateTOTP_decoded secret value digits now key Hd) by lia.
  rewrite divisor_loop_nonpositive by exact Hdig.
  now rewrite Z.rem_1_r.
Qed.

Lemma generateTOTP_nonpositive_digits_witness :
  generateTOTP rfc6238_secret (hashFunc_of SHA256) (-3) 59 = Returned ("0"%string, None).
Proof.
  apply (generateTOTP_nonpositive_digits rfc6238_secret SHA256 (-3) 59
           (fst (DecodeBase32 rfc6238_secret))).
  - vm_compute. reflexivity.
  - lia.
Defined.

(** X9: a digit count from 10 to 63 does not lengthen the code: the divisor
    (wrapped or not) exceeds every truncated value, and the code is the
    decimal text of the whole truncated value. *)
Theorem generateTOTP_ten_or_more_digits (secret : string) (value : Algorithm)
  (digits now : Z) (key : list byte) :
  DecodeBase32 secret = (key, None) ->
  10 <= digits < 64 ->
  generateTOTP secret (hashFunc_of value) digits now =
    Returned
      (strconv.Itoa
         (dynamic_truncation
            (GenerateHMAC (hashFunc_of value) key (ConvertTime (interval_of now)))),
       None).
Proof.
  intros Hd Hdig.
  rewrite (generateTOTP_decoded secret value digits now key Hd) by lia.
  pose proof (dynamic_truncation_range
                (GenerateHMAC (hashFunc_of value) key (ConvertTime (interval_of now))))
    as Hr.
  pose proof (divisor_loop_large digits Hdig) as Hl.
  assert (Hnz : divisor_loop digits <> 0) by (apply divisor_loop_nonzero; lia).
  assert (E : Z.rem (dynamic_truncation
                       (GenerateHMAC (hashFunc_of value) key
                          (ConvertTime (interval_of now))))
                    (divisor_loop digits)
              = dynamic_truncation
                  (GenerateHMAC (hashFunc_of value) key (ConvertTime (interval_of now)))).
  { apply Z.rem_small_iff; [exact Hnz | lia]. }
  now rewrite E.
Qed.

Lemma generateTOTP_ten_or_more_digits_witness :
  generateTOTP rfc6238_secret (hashFunc_of SHA1) 19 59 =
    Returned
      (strconv.Itoa
         (dynamic_truncation
            (GenerateHMAC (hashFunc_of SHA1) (fst (DecodeBase32 rfc6238_secret))
               (ConvertTime (interval_of 59)))),
       None).
Proof.
  apply (generateTOTP_ten_or_more_digits rfc6238_secret SHA1 19 59
           (fst (DecodeBase32 rfc6238_secret))).
  - vm_compute. reflexivity.
  - lia.
Defined.

(** X10: whatever the digit count, a code that [generateTOTP] returns with a
    nil error is the decimal text, without sign, of a number between 0 and
    2^31 - 1; it has between 1 and 10 characters and is never empty. *)
Theorem generateTOTP_code_shape (secret : string) (value : Algorithm)
  (digits now : Z) (code : string) :
  generateTOTP secret (hashFunc_of value) digits now = Returned (code, None) ->
  exists n,
    0 <= n <= 2 ^ 31 - 1
    /\ code = strconv.Itoa n
    /\ decimal_value code = n
    /\ 1 <= slen code <= 10.
Proof.
  rewrite generateTOTP_stages.
  destruct (DecodeBase32 secret) as [key [e|]]; [discriminate|].
  cbv zeta. destruct (64 <=? digits) eqn:E; [discriminate|].
  apply Z.leb_gt in E. intro H. inversion H as [Hc]. clear H.
  set (v := dynamic_truncation _).
  assert (Hn : 0 <= Z.rem v (divisor_loop digits) <= 2 ^ 31 - 1).
  { apply rem_truncated_range; [apply dynamic_truncation_range|].
    now apply divisor_loop_nonzero. }
  exists (Z.rem v (divisor_loop digits)).
  split; [exact Hn|]. split; [reflexivity|].
  apply Itoa_shape. exact Hn.
Qed.

Lemma generateTOTP_code_shape_witness :
  exists n,
    0 <= n <= 2 ^ 31 - 1
    /\ "7081804"%string = strconv.Itoa n
    /\ decimal_value "7081804" = n
    /\ 1 <= slen "7081804" <= 10.
Proof.
  apply (generateTOTP_code_shape rfc6238_secret SHA1 8 1111111109).
  vm_compute. reflexivity.
Defined.

(** X11: for 1 to 18 digits and a secret that decodes, the code is the
    decimal text of the truncated value modulo [10^digits]; it has at most
    [digits] characters and, from two digits on, exactly [digits] characters
    only when that remainder is at least [10^(digits-1)]. *)
Theorem generateTOTP_code_remainder (secret : string) (value : Algorithm)
  (digits now : Z) (key : list byte) :
  DecodeBase32 secret = (key, None) ->
  1 <= digits <= 18 ->
  exists code,
    generateTOTP secret (hashFunc_of value) digits now = Returned (code, None)
    /\ decimal_value code
       = dynamic_truncation
           (GenerateHMAC (hashFunc_of value) key (ConvertTime (interval_of now)))
         mod 10 ^ digits
    /\ slen code <= digits
    /\ (2 <= digits ->
        (slen code = digits <-> 10 ^ (digits - 1) <= decimal_value code)).
Proof.
  intros Hd Hdig.
  destruct (code_length_and_value secret value digits now key Hd Hdig)
    as [code [Hc [Hv [Hle [Heq Hlt]]]]].
  exists code. split; [exact Hc|]. split; [exact Hv|]. split; [exact Hle|].
  intro H2. rewrite Hv. split.
  - intro Hs.
    destruct (Z.lt_ge_cases
                (dynamic_truncation
                   (GenerateHMAC (hashFunc_of value) key
                      (ConvertTime (interval_of now))) mod 10 ^ digits)
                (10 ^ (digits - 1))) as [Hsmall|Hbig]; [|exact Hbig].
    specialize (Hlt H2 Hsmall). lia.
  - exact Heq.
Qed.

Lemma generateTOTP_code_remainder_witness :
  exists code,
    generateTOTP rfc6238_secret (hashFunc_of SHA1) 6 1111111109 = Returned (code, None)
    /\ decimal_value code
       = dynamic_truncation
           (GenerateHMAC (hashFunc_of SHA1) (fst (DecodeBase32 rfc6238_secret))
              (ConvertTime (interval_of 1111111109)))
         mod 10 ^ 6
    /\ slen code <= 6
    /\ (2 <= 6 -> (slen code = 6 <-> 10 ^ (6 - 1) <= decimal_value code)).
Proof.
  apply (generateTOTP_code_remainder rfc6238_secret SHA1 6 1111111109
           (fst (DecodeBase32 rfc6238_secret))).
  - vm_compute. reflexivity.
  - lia.
Defined.

(** ** DecodeBase32 on secrets without padding *)

Lemma in_alphabet_not_padding (c : byte) :
  in_alphabet c = true -> Byte.eqb c base32.StdPadding = false.
Proof.
  intro H. destruct (Byte.eqb c base32.StdPadding) eqn:E; [|reflexivity].
  apply Byte.byte_dec_bl in E. subst c. vm_compute in H. discriminate H.
Qed.

Lemma in_alphabet_decodeMap (c : byte) :
  in_alphabet c = true -> (base32.decodeMap c =? 0xFF) = false.
Proof.
  unfold in_alphabet. intro H. now apply negb_true_iff in H.
Qed.

Lemma readQuantum_full (taken : list byte) :
  forall (rest : list byte) (j : Z) (dbuf : list Z),
  0 <= j -> len taken = 8 - j ->
  forallb in_alphabet taken = true ->
  base32.readQuantum (taken ++ rest) j dbuf
  = base32.Quantum (dbuf ++ map base32.decodeMap taken) 8 false rest.
Proof.
  induction taken as [|c taken IH]; intros rest j dbuf Hj Hlen Hall.
  - unfold len in Hlen. cbn [List.length] in Hlen. assert (j = 8) by lia. subst j.
    cbn [app map]. rewrite app_nil_r.
    destruct rest; reflexivity.
  - unfold len in Hlen. cbn [List.length] in Hlen.
    cbn [forallb] in Hall. apply andb_true_iff in Hall. destruct Hall as [Hc Hall].
    cbn [app base32.readQuantum].
    assert (E8 : (8 <=? j) = false) by (apply Z.leb_gt; lia).
    rewrite E8, (in_alphabet_not_padding c Hc). cbn [andb]. cbv zeta.
    rewrite (in_alphabet_decodeMap c Hc).
    rewrite IH by (unfold len; lia || assumption).
    cbn [map]. now rewrite <- app_assoc.
Qed.

Lemma pack_full_length (dbuf : list Z) : List.length (base32.pack dbuf 8) = 5%nat.
Proof. reflexivity. Qed.

Lemma decodeLoop_full (n : nat) :
  forall (src : list byte) (fuel : nat) (dst : list byte),
  List.length src = (8 * n)%nat ->
  forallb in_alphabet src = true ->
  (List.length src < fuel)%nat ->
  exists out,
    base32.decodeLoop fuel src false dst = (dst ++ out, None)
    /\ List.length out = (5 * n)%nat.
Proof.
  induction n as [|n IH]; intros src fuel dst Hlen Hall Hfuel.
  - destruct src; [|simpl in Hlen; lia].
    destruct fuel; [lia|]. exists []. split; [|reflexivity].
    cbn [base32.decodeLoop]. now rewrite app_nil_r.
  - destruct fuel as [|fuel]; [lia|].
    rewrite <- (firstn_skipn 8 src) in Hall |- *.
    rewrite forallb_app in Hall. apply andb_true_iff in Hall.
    destruct Hall as [Ht Hr].
    assert (Hl8 : List.length (firstn 8 src) = 8%nat)
      by (rewrite length_firstn; lia).
    assert (Hlr : List.length (skipn 8 src) = (8 * n)%nat)
      by (rewrite length_skipn; lia).
    cbn [base32.decodeLoop].
    assert (Hpos : (0 <? len (firstn 8 src ++ skipn 8 src)) && negb false = true).
    { unfold len. rewrite length_app, Hl8. apply andb_true_iff. split; [|reflexivity].
      apply Z.ltb_lt. lia. }
    rewrite Hpos.
    rewrite (readQuantum_full (firstn 8 src) (skipn 8 src) 0 [])
      by (unfold len; lia || assumption).
    destruct (IH (skipn 8 src) fuel
                (dst ++ base32.pack ([] ++ map base32.decodeMap (firstn 8 src)) 8)
                Hlr Hr ltac:(lia)) as [out [Ho Hlo]].
    exists (base32.pack ([] ++ map base32.decodeMap (firstn 8 src)) 8 ++ out).
    split.
    + rewrite Ho. now rewrite <- app_assoc.
    + rewrite length_app, pack_full_length, Hlo. lia.
Qed.

Lemma readQuantum_unpadded (src : list byte) :
  forall (j : Z) (dbuf : list Z),
  existsb (fun c => Byte.eqb c base32.StdPadding) src = false ->
  0 <= j <= 8 ->
  match base32.readQuantum src j dbuf with
  | base32.QuantumError _ => True
  | base32.Quantum _ _ end_ rest =>
      end_ = false
      /\ exists taken,
           src = taken ++ rest /\ len taken = 8 - j
           /\ forallb in_alphabet taken = true
  end.
Proof.
  induction src as [|c src IH]; intros j dbuf Hpad Hj; cbn [base32.readQuantum].
  - destruct (8 <=? j) eqn:E; [|exact I].
    apply Z.leb_le in E. split; [reflexivity|].
    exists []. split; [reflexivity|]. split; [unfold len; cbn [List.length]; lia | reflexivity].
  - destruct (8 <=? j) eqn:E.
    + apply Z.leb_le in E. split; [reflexivity|].
      exists []. split; [reflexivity|]. split; [unfold len; cbn [List.length]; lia | reflexivity].
    + apply Z.leb_gt in E.
      cbn [existsb] in Hpad. apply orb_false_iff in Hpad. destruct Hpad as [Hc Hs].
      rewrite Hc. cbn [andb]. cbv zeta.
      destruct (base32.decodeMap c =? 0xFF) eqn:Ed; [exact I|].
      specialize (IH (j + 1) (dbuf ++ [base32.decodeMap c]) Hs ltac:(lia)).
      destruct (base32.readQuantum src (j + 1) (dbuf ++ [base32.decodeMap c]))
        as [e|dbuf' dlen end_ rest]; [exact I|].
      destruct IH as [He [taken [Hsrc [Hlen Hall]]]].
      split; [exact He|].
      exists (c :: taken). split; [now rewrite Hsrc|]. split.
      * unfold len in *. cbn [List.length]. lia.
      * cbn [forallb]. rewrite Hall. unfold in_alphabet. now rewrite Ed.
Qed.

Lemma decodeLoop_unpadded (fuel : nat) :
  forall (src dst out : list byte),
  existsb (fun c => Byte.eqb c base32.StdPadding) src = false ->
  (List.length src < fuel)%nat ->
  base32.decodeLoop fuel src false dst = (out, None) ->
  forallb in_alphabet src = true /\ (List.length src mod 8 = 0)%nat.
Proof.
  induction fuel as [|fuel IH]; intros src dst out Hpad Hfuel H; [lia|].
  cbn [base32.decodeLoop] in H.
  destruct src as [|c src'] eqn:Es; [split; reflexivity|].
  rewrite <- Es in *.
  assert (Hpos : (0 <? len src) && negb false = true).
  { apply andb_true_iff. split; [|reflexivity]. apply Z.ltb_lt.
    unfold len. rewrite Es. cbn [List.length]. lia. }
  rewrite Hpos in H.
  pose proof (readQuantum_unpadded src 0 [] Hpad ltac:(lia)) as Hq.
  destruct (base32.readQuantum src 0 []) as [e|dbuf dlen end_ rest];
    [discriminate H|].
  destruct Hq as [He [taken [Hsrc [Hlen Hall]]]]. subst end_.
  assert (Hpr : existsb (fun c => Byte.eqb c base32.StdPadding) rest = false).
  { rewrite Hsrc, existsb_app in Hpad. now apply orb_false_iff in Hpad. }
  assert (Hl : List.length src = (8 + List.length rest)%nat).
  { rewrite Hsrc, length_app. unfold len in Hlen. lia. }
  assert (Hfr : (List.length rest < fuel)%nat) by lia.
  destruct (IH rest _ out Hpr Hfr H) as [Hr Hm].
  split.
  - rewrite Hsrc, forallb_app, Hall, Hr. reflexivity.
  - rewrite Hl. rewrite <- Nat.Div0.add_mod_idemp_l.
    change (8 mod 8)%nat with 0%nat. exact Hm.
Qed.

(** X12: for a secret without the padding character (line breaks aside),
    decoding succeeds exactly when every character is one of
    A-Z and 2-7 and the number of characters is a multiple of 8; the key then
    has 5 bytes for every 8 characters.  Lower-case letters, the digits 0, 1,
    8 and 9, blanks and an incomplete last group are decoding errors. *)
Theorem DecodeBase32_unpadded (secret : string) :
  let src := base32.stripNewlines (list_byte_of_string secret) in
  existsb (fun c => Byte.eqb c base32.StdPadding) src = false ->
  (snd (DecodeBase32 secret) = None
   <-> forallb in_alphabet src = true /\ (List.length src mod 8 = 0)%nat)
  /\ (snd (DecodeBase32 secret) = None ->
      List.length (fst (DecodeBase32 secret)) = (5 * (List.length src / 8))%nat).
Proof.
  intros src Hpad.
  unfold DecodeBase32, base32.DecodeString, base32.decode. fold src.
  assert (Hfull : forallb in_alphabet src = true /\ (List.length src mod 8 = 0)%nat ->
                  exists out,
                    base32.decodeLoop (S (List.length src)) src false []
                    = (out, None)
                    /\ List.length out = (5 * (List.length src / 8))%nat).
  { intros [Hall Hm].
    assert (Hl : List.length src = (8 * (List.length src / 8))%nat)
      by (apply Nat.Div0.div_exact; exact Hm).
    destruct (decodeLoop_full (List.length src / 8) src (S (List.length src)) []
                Hl Hall ltac:(lia)) as [out [Ho Hlo]].
    exists out. split; [exact Ho | exact Hlo]. }
  assert (Hinv : snd (base32.decodeLoop (S (List.length src)) src false []) = None ->
                 forallb in_alphabet src = true /\ (List.length src mod 8 = 0)%nat).
  { intro Hn.
    destruct (base32.decodeLoop (S (List.length src)) src false []) as [out err] eqn:E.
    cbn [snd] in Hn. subst err.
    apply (decodeLoop_unpadded (S (List.length src)) src [] out Hpad); [lia | exact E]. }
  split; [split|].
  - exact Hinv.
  - intro H. destruct (Hfull H) as [out [Ho _]]. now rewrite Ho.
  - intro Hn. destruct (Hfull (Hinv Hn)) as [out [Ho Hlo]]. now rewrite Ho.
Qed.

Lemma DecodeBase32_unpadded_witness :
  (snd (DecodeBase32 "JBSWY3DPEHPK3PXP") = None
   <-> forallb in_alphabet
         (base32.stripNewlines (list_byte_of_string "JBSWY3DPEHPK3PXP")) = true
       /\ (List.length (base32.stripNewlines (list_byte_of_string "JBSWY3DPEHPK3PXP"))
           mod 8 = 0)%nat)
  /\ (snd (DecodeBase32 "JBSWY3DPEHPK3PXP") = None ->
      List.length (fst (DecodeBase32 "JBSWY3DPEHPK3PXP"))
      = (5 * (List.length
                (base32.stripNewlines (list_byte_of_string "JBSWY3DPEHPK3PXP")) / 8))%nat).
Proof.
  apply (DecodeBase32_unpadded "JBSWY3DPEHPK3PXP").
  vm_compute. reflexivity.
Defined.

Lemma list_byte_of_string_app (s1 s2 : string) :
  list_byte_of_string (s1 ++ s2) = list_byte_of_string s1 ++ list_byte_of_string s2.
Proof.
  unfold list_byte_of_string.
  induction s1 as [|c s1 IH]; [reflexivity|].
  cbn [String.append list_ascii_of_string map app]. now rewrite IH.
Qed.

Lemma stripNewlines_insert (c : ascii) (s1 s2 : string) :
  c = "010"%char \/ c = "013"%char ->
  base32.stripNewlines (list_byte_of_string (s1 ++ String c s2))
  = base32.stripNewlines (list_byte_of_string (s1 ++ s2)).
Proof.
  intro Hc. rewrite !list_byte_of_string_app.
  unfold base32.stripNewlines. rewrite !filter_app. f_equal.
  destruct Hc as [-> | ->]; reflexivity.
Qed.

(** X13: a line feed or a carriage return anywhere in the secret is dropped
    before decoding: the secret with the character and the secret without
    it decode alike and give the same result of [generateTOTP]. *)
Theorem generateTOTP_ignores_line_breaks (s1 s2 : string) (hf : hash.Hash)
  (digits now : Z) :
  DecodeBase32 (s1 ++ String "010" s2) = DecodeBase32 (s1 ++ s2)
  /\ DecodeBase32 (s1 ++ String "013" s2) = DecodeBase32 (s1 ++ s2)
  /\ generateTOTP (s1 ++ String "010" s2) hf digits now
     = generateTOTP (s1 ++ s2) hf digits now
  /\ generateTOTP (s1 ++ String "013" s2) hf digits now
     = generateTOTP (s1 ++ s2) hf digits now.
Proof.
  assert (E1 : DecodeBase32 (s1 ++ String "010" s2) = DecodeBase32 (s1 ++ s2)).
  { unfold DecodeBase32, base32.DecodeString.
    now rewrite (stripNewlines_insert "010" s1 s2) by (left; reflexivity). }
  assert (E2 : DecodeBase32 (s1 ++ String "013" s2) = DecodeBase32 (s1 ++ s2)).
  { unfold DecodeBase32, base32.DecodeString.
    now rewrite (stripNewlines_insert "013" s1 s2) by (right; reflexivity). }
  split; [exact E1|]. split; [exact E2|].
  unfold generateTOTP. rewrite E1, E2. split; reflexivity.
Qed.

(** ** updateTOTP and the callbacks of main *)

Lemma updateTOTP_stages (label : widget.Label) (secret : string) (value : Algorithm)
  (digits now : Z) :
  digits < 64 ->
  updateTOTP label secret (hashFunc_of value) digits now =
  match DecodeBase32 secret with
  | (_, Some _) => Returned (widget.SetText label "Error Generating TOTP")
  | (key, None) =>
      Returned
        (widget.SetText label
           (strconv.Itoa
              (Z.rem (dynamic_truncation
                        (GenerateHMAC (hashFunc_of value) key
                           (ConvertTime (interval_of now))))
                     (divisor_loop digits))))
  end.
Proof.
  intro Hdig. unfold updateTOTP. rewrite generateTOTP_stages.
  destruct (DecodeBase32 secret) as [key [e|]]; [reflexivity|].
  cbv zeta. apply Z.leb_gt in Hdig. now rewrite Hdig.
Qed.

Lemma Itoa_not_error_message (n : Z) :
  0 <= n <= 2 ^ 31 - 1 -> strconv.Itoa n <> "Error Generating TOTP"%string.
Proof.
  intros Hn E. destruct (Itoa_shape n Hn) as [_ Hs].
  rewrite E in Hs. vm_compute in Hs. destruct Hs as [_ Hs]. now apply Hs.
Qed.

(** X14: for a digit count below 64, [updateTOTP] always sets the label:
    to the fixed text Error Generating TOTP exactly when the secret does not
    decode, whatever the decoding error, and otherwise to the code that
    [generateTOTP] returns; the text the label had before plays no part. *)
Theorem updateTOTP_label (label : widget.Label) (secret : string) (value : Algorithm)
  (digits now : Z) :
  digits < 64 ->
  exists label',
    updateTOTP label secret (hashFunc_of value) digits now = Returned label'
    /\ (widget.Text label' = "Error Generating TOTP"%string
        <-> snd (DecodeBase32 secret) <> None)
    /\ (snd (DecodeBase32 secret) = None ->
        generateTOTP secret (hashFunc_of value) digits now
        = Returned (widget.Text label', None))
    /\ updateTOTP (widget.NewLabel "") secret (hashFunc_of value) digits now
       = Returned label'.
Proof.
  intro Hdig.
  rewrite !updateTOTP_stages by exact Hdig.
  rewrite generateTOTP_stages.
  destruct (DecodeBase32 secret) as [key [e|]]; cbn [snd]; cbv zeta.
  - eexists. split; [reflexivity|]. split; [|split].
    + split; [discriminate | reflexivity].
    + discriminate.
    + reflexivity.
  - pose proof Hdig as Hlt. apply Z.leb_gt in Hlt. rewrite Hlt.
    eexists. split; [reflexivity|]. split; [|split].
    + cbn [widget.SetText widget.Text]. split; [|congruence].
      intro E. exfalso. revert E. apply Itoa_not_error_message.
      apply rem_truncated_range; [apply dynamic_truncation_range|].
      now apply divisor_loop_nonzero.
    + reflexivity.
    + reflexivity.
Qed.

Lemma updateTOTP_label_witness :
  exists label',
    updateTOTP (widget.NewLabel "old") "not base32" (hashFunc_of SHA1) 6 59
    = Returned label'
    /\ (widget.Text label' = "Error Generating TOTP"%string
        <-> snd (DecodeBase32 "not base32") <> None)
    /\ (snd (DecodeBase32 "not base32") = None ->
        generateTOTP "not base32" (hashFunc_of SHA1) 6 59
        = Returned (widget.Text label', None))
    /\ updateTOTP (widget.NewLabel "") "not base32" (hashFunc_of SHA1) 6 59
       = Returned label'.
Proof.
  apply (updateTOTP_label (widget.NewLabel "old") "not base32" SHA1 6 59). lia.
Defined.










(** ** generateTOTP with an arbitrary hash function *)


